(** * Grafix.js / Emoji.js: a shallow embedding of the canvas helpers

    The development follows [src/emoji.js] (the file holds the emoji tables
    followed by Grafix.js).  It embeds the drawing helpers, the diagnostics
    toggles, the frame-rate estimator and the time keeper, and proves the
    properties of the specification about them.

    Numbers.  JavaScript numbers are IEEE doubles.  The embedding uses
    - [Z] for the quantities that the code only ever builds from integer
      literals by [+= 1], [+= 30], [length] and [Math.floor] (the time keeper
      counters, the grid loop variables, [fps], the throttle counter) and
      for the canvas dimensions, which the DOM defines as integers; all the
      values reached in the theorems below are at most 2^53, where doubles
      represent integers exactly;
    - [Q] for the quantities that can be fractional (coordinates, text
      metrics, time stamps).  *)

From Stdlib Require Import ZArith QArith Qabs Lqa Lia String List.
From Stdlib Require HexadecimalString HexadecimalZ.
From Equations Require Import Equations.
From stdpp Require Import base option list sorting gmap strings pretty.
Import ListNotations.

Open Scope Z_scope.

(** ** The host: a 2D rendering context

    [CanvasRenderingContext2D] is not part of the repository.  The model
    keeps what the helpers use of it: the four style attributes they assign,
    the stack of saved drawing states behind [save()] and [restore()], the
    current path (which is not part of the saved state), and a record of
    what has been rendered or measured so far, each entry with the style in
    force when it was issued.  An assignment to a style attribute is taken
    to succeed: the browser ignores an assignment of a malformed color or
    font or of a width that is not positive, and the helpers are meant for
    well-formed specs. *)

Module canvas.
Record t := mk { width : Z; height : Z }.
End canvas.

Module ctx2d.

Record style := mkStyle {
  strokeStyle : string;
  lineWidth : Q;
  fillStyle : string;
  font : string
}.

Inductive segment :=
| MoveTo (x y : Q)
| LineTo (x y : Q).

Inductive rendered :=
| Stroked (path : list segment) (strokeStyle : string) (lineWidth : Q)
| FilledText (text : string) (x y : Q) (fillStyle font : string)
| Measured (text : string) (font : string).

Record t := mk {
  current : style;
  saved : list style;
  path : list segment;
  output : list rendered
}.

Definition save (c : t) : t :=
  mk (current c) (current c :: saved c) (path c) (output c).

(* restore() on an empty stack does nothing *)
Definition restore (c : t) : t :=
  match saved c with
  | [] => c
  | s :: rest => mk s rest (path c) (output c)
  end.

Definition set_strokeStyle (c : t) (v : string) : t :=
  mk (mkStyle v (lineWidth (current c)) (fillStyle (current c)) (font (current c)))
     (saved c) (path c) (output c).

Definition set_lineWidth (c : t) (v : Q) : t :=
  mk (mkStyle (strokeStyle (current c)) v (fillStyle (current c)) (font (current c)))
     (saved c) (path c) (output c).

Definition set_fillStyle (c : t) (v : string) : t :=
  mk (mkStyle (strokeStyle (current c)) (lineWidth (current c)) v (font (current c)))
     (saved c) (path c) (output c).

Definition set_font (c : t) (v : string) : t :=
  mk (mkStyle (strokeStyle (current c)) (lineWidth (current c)) (fillStyle (current c)) v)
     (saved c) (path c) (output c).

Definition beginPath (c : t) : t :=
  mk (current c) (saved c) [] (output c).

Definition moveTo (c : t) (x y : Q) : t :=
  mk (current c) (saved c) (path c ++ [MoveTo x y]) (output c).

Definition lineTo (c : t) (x y : Q) : t :=
  mk (current c) (saved c) (path c ++ [LineTo x y]) (output c).

Definition stroke (c : t) : t :=
  mk (current c) (saved c) (path c)
     (output c ++ [Stroked (path c) (strokeStyle (current c)) (lineWidth (current c))]).

Definition fillText (c : t) (text : string) (x y : Q) : t :=
  mk (current c) (saved c) (path c)
     (output c ++ [FilledText text x y (fillStyle (current c)) (font (current c))]).

(** What [measureText] returns. *)
Record metrics := mkMetrics {
  width : Q;
  actualBoundingBoxAscent : Q;
  actualBoundingBoxDescent : Q
}.

(** The measurement capability of a surface: the metrics of a text under
    a font. *)
Definition measurer := string -> string -> metrics.

(** [measureText] measures under the font the context has at the time of
    the call; the call is recorded with that font. *)
Definition measureText (measure : measurer) (c : t) (text : string) : metrics * t :=
  (measure (font (current c)) text,
   mk (current c) (saved c) (path c) (output c ++ [Measured text (font (current c))])).

End ctx2d.

(** ** Primitive drawers *)

(** The basic properties required to draw a line. *)
Module lineProps.
Record t := mk {
  x1 : Q;
  y1 : Q;
  x2 : Q;
  y2 : Q;
  strokeStyle : string;
  lineWidth : Q
}.
End lineProps.

Definition drawLine (ctx : ctx2d.t) (lp : lineProps.t) : ctx2d.t :=
  let ctx := ctx2d.save ctx in
  let ctx := ctx2d.beginPath ctx in
  let ctx := ctx2d.moveTo ctx (lineProps.x1 lp) (lineProps.y1 lp) in
  let ctx := ctx2d.lineTo ctx (lineProps.x2 lp) (lineProps.y2 lp) in
  let ctx := ctx2d.set_lineWidth ctx (lineProps.lineWidth lp) in
  let ctx := ctx2d.set_strokeStyle ctx (lineProps.strokeStyle lp) in
  let ctx := ctx2d.stroke ctx in
  ctx2d.restore ctx.

(** The basic properties required to draw text. *)
Module textProps.
Record t := mk {
  message : string;
  x : Q;
  y : Q;
  fillStyle : string;
  font : string
}.
End textProps.

Definition drawText (ctx : ctx2d.t) (tp : textProps.t) : ctx2d.t :=
  let ctx := ctx2d.save ctx in
  let ctx := ctx2d.set_fillStyle ctx (textProps.fillStyle tp) in
  let ctx := ctx2d.set_font ctx (textProps.font tp) in
  let ctx := ctx2d.fillText ctx (textProps.message tp) (textProps.x tp) (textProps.y tp) in
  ctx2d.restore ctx.

(** ** Composite drawers *)

(** The two loops of [drawGrid].  The loop variable stays an integer;
    [fillText] is handed the number and renders its decimal form. *)

Equations? gridVertical (cv : canvas.t) (x : Z) (ctx : ctx2d.t) : ctx2d.t
  by wf (Z.to_nat (canvas.width cv - x)) lt :=
  gridVertical cv x ctx with decide (x < canvas.width cv) := {
    | left _ =>
        let ctx := drawLine ctx
          (lineProps.mk (inject_Z x) 0 (inject_Z x) (inject_Z (canvas.height cv)) "#333" 2) in
        let ctx := drawText ctx
          (textProps.mk (pretty x) (inject_Z x - 4) 20 "gray" "12px Arial") in
        gridVertical cv (x + 30) ctx;
    | right _ => ctx }.
Proof. lia. Qed.

Equations? gridHorizontal (cv : canvas.t) (y : Z) (ctx : ctx2d.t) : ctx2d.t
  by wf (Z.to_nat (canvas.height cv - y)) lt :=
  gridHorizontal cv y ctx with decide (y < canvas.height cv) := {
    | left _ =>
        let ctx := drawLine ctx
          (lineProps.mk 0 (inject_Z y) (inject_Z (canvas.width cv)) (inject_Z y) "#333" 2) in
        let ctx := drawText ctx
          (textProps.mk (pretty y) 10 (inject_Z y + 4) "gray" "12px Arial") in
        gridHorizontal cv (y + 30) ctx;
    | right _ => ctx }.
Proof. lia. Qed.

Definition drawGrid (cv : canvas.t) (ctx : ctx2d.t) : ctx2d.t :=
  (* Grid Vertical *)
  let ctx := gridVertical cv 0 ctx in
  (* Grid Horizonal *)
  gridHorizontal cv 0 ctx.

Definition drawCenter (cv : canvas.t) (ctx : ctx2d.t) : ctx2d.t :=
  let centerX := (inject_Z (canvas.width cv) / 2)%Q in
  let centerY := (inject_Z (canvas.height cv) / 2)%Q in
  let ctx := drawLine ctx
    (lineProps.mk 0 centerY (inject_Z (canvas.width cv)) centerY "darkgray" 4) in
  drawLine ctx
    (lineProps.mk centerX 0 centerX (inject_Z (canvas.height cv)) "darkgray" 4).

(** ** Text metrics *)

(** Computed properties of a text element. *)
Module textBox.
Record t := mk {
  textTop : Q;
  textBottom : Q;
  textHeight : Q;
  textMid : Q;
  textLeft : Q;
  textRight : Q;
  textWidth : Q;
  textHorizonalCenter : Q;
  textVerticalCenter : Q
}.
End textBox.

Section TextMetrics.

Variable measure : ctx2d.measurer.

Definition getTextBox (ctx : ctx2d.t) (tp : textProps.t) : textBox.t * ctx2d.t :=
  let '(textMetrics, ctx) := ctx2d.measureText measure ctx (textProps.message tp) in
  let textTop := Qabs (textProps.y tp - ctx2d.actualBoundingBoxAscent textMetrics) in
  let textBottom := Qabs (textProps.y tp + ctx2d.actualBoundingBoxDescent textMetrics) in
  let textHeight := (textBottom - textTop)%Q in
  let textMid := (textTop + (textHeight / 2))%Q in
  let textLeft := textProps.x tp in
  let textRight := (textProps.x tp + ctx2d.width textMetrics)%Q in
  (textBox.mk textTop textBottom textHeight textMid textLeft textRight
     (ctx2d.width textMetrics)
     (textLeft + (ctx2d.width textMetrics / 2))%Q
     textMid,
   ctx).

Definition drawTextBox (ctx : ctx2d.t) (cv : canvas.t) (tp : textProps.t) : ctx2d.t :=
  (* text metrics *)
  let ctx := ctx2d.set_fillStyle ctx (textProps.fillStyle tp) in
  let ctx := ctx2d.set_font ctx (textProps.font tp) in
  let '(tb, ctx) := getTextBox ctx tp in
  (* textTop *)
  let ctx := drawLine ctx
    (lineProps.mk 0 (textBox.textTop tb) (inject_Z (canvas.width cv)) (textBox.textTop tb)
       "yellow" 2) in
  (* textBottom *)
  let ctx := drawLine ctx
    (lineProps.mk 0 (textBox.textBottom tb) (inject_Z (canvas.width cv)) (textBox.textBottom tb)
       "orange" 2) in
  (* textMid *)
  let ctx := drawLine ctx
    (lineProps.mk 0 (textBox.textMid tb) (inject_Z (canvas.width cv)) (textBox.textMid tb)
       "red" 2) in
  (* textLeft *)
  let ctx := drawLine ctx
    (lineProps.mk (textBox.textLeft tb) 0 (textBox.textLeft tb) (inject_Z (canvas.height cv))
       "cyan" 2) in
  (* textRight *)
  drawLine ctx
    (lineProps.mk (textBox.textRight tb) 0 (textBox.textRight tb) (inject_Z (canvas.height cv))
       "chartreuse" 2).

End TextMetrics.

(** ** Diagnostics toggles *)

(** [buttonBarToggles] is a JavaScript object that the click handlers index
    by property name, so it is a finite map from names to booleans.  A
    property that is missing, or that holds [undefined], is an absent key:
    it reads as [undefined], which is falsy, and the code only ever tests
    or negates what it reads. *)

Definition truthy (v : option bool) : bool := default false v.

Definition buttonBarToggles : gmap string bool :=
  <["showFPS" := true]>
  (<["showMouseCoordinates" := true]>
  (<["showTextBox" := true]>
  (<["showCenter" := true]>
  (<["showGrid" := true]> ∅)))).

(** A button of the bar: its caption and its click listener, which acts on
    the toggles in force when the click arrives. *)
Record button := mkButton {
  textContent : string;
  click : gmap string bool -> gmap string bool
}.

(** The arrow function that [addButtonToBar] registers for ['click']. *)
Definition toggleListener (toggle : string) (bbt : gmap string bool) : gmap string bool :=
  <[toggle := negb (truthy (bbt !! toggle))]> bbt.

Definition addButtonToBar (textContent : string) (toggle : string)
    (buttonBar : list button) : list button :=
  let newButton := mkButton textContent (toggleListener toggle) in
  buttonBar ++ [newButton].

(** The children of the [div] that [buttonBar] creates. *)
Definition buttonBar : list button :=
  let buttonBar := [] in
  let buttonBar := addButtonToBar "Toggle Grid" "showGrid" buttonBar in
  let buttonBar := addButtonToBar "Toggle Center" "showCenter" buttonBar in
  let buttonBar := addButtonToBar "Toggle Text Box" "showTextBox" buttonBar in
  let buttonBar := addButtonToBar "Toggle Mouse Coordinates" "showMouseCoordinates" buttonBar in
  addButtonToBar "Toggle FPS" "showFPS" buttonBar.

(** ** Frame rate *)

(** Properties used to calcuate and display frames per second. *)
Module frameRateProps.
Record t := mk {
  fps : Z;
  times : list Q;
  counter : Z  (* used to trottle drawing of FPS text *)
}.
End frameRateProps.

Definition frameRateProps_init : frameRateProps.t := frameRateProps.mk 0 [] 0.

(** [while (times.length > 0 && times[0] <= timeStamp - 1000) times.shift()] *)
Fixpoint shiftOld (timeStamp : Q) (times : list Q) : list Q :=
  match times with
  | [] => []
  | t0 :: rest =>
      if Qle_bool t0 (timeStamp - 1000) then shiftOld timeStamp rest else t0 :: rest
  end.

(** The bookkeeping part of [drawFrameRate], up to the drawing calls. *)
Definition recordFrame (timeStamp : Q) (frp : frameRateProps.t) : frameRateProps.t :=
  let frp := frameRateProps.mk (frameRateProps.fps frp)
               (shiftOld timeStamp (frameRateProps.times frp))
               (frameRateProps.counter frp) in
  let frp := frameRateProps.mk (frameRateProps.fps frp)
               (frameRateProps.times frp ++ [timeStamp])
               (frameRateProps.counter frp) in
  let frp := frameRateProps.mk (frameRateProps.fps frp)
               (frameRateProps.times frp)
               (frameRateProps.counter frp + 1) in
  if 10 <? frameRateProps.counter frp
  then
    let frp := frameRateProps.mk (Z.of_nat (length (frameRateProps.times frp)))
                 (frameRateProps.times frp)
                 (frameRateProps.counter frp) in
    frameRateProps.mk (frameRateProps.fps frp) (frameRateProps.times frp) 0
  else frp.

Definition drawFrameRate (cv : canvas.t) (ctx : ctx2d.t) (timeStamp : Q)
    (frp : frameRateProps.t) : ctx2d.t * frameRateProps.t :=
  let frp := recordFrame timeStamp frp in
  let ctx := ctx2d.set_fillStyle ctx "yellow" in
  let ctx := ctx2d.set_font ctx "14px monospace" in
  let ctx := ctx2d.fillText ctx ("FPS: " +:+ pretty (frameRateProps.fps frp))
               (inject_Z (canvas.width cv - 100)) (inject_Z (canvas.height cv - 30)) in
  (ctx, frp).

(** ** Mouse position *)

Module mouseProps.
Record t := mk { mouseX : Z; mouseY : Z }.
End mouseProps.

Definition drawMouseMove (mp : mouseProps.t) (cv : canvas.t) (ctx : ctx2d.t) : ctx2d.t :=
  let ctx := ctx2d.set_fillStyle ctx "yellow" in
  let ctx := ctx2d.set_font ctx "14px monospace" in
  ctx2d.fillText ctx (pretty (mouseProps.mouseX mp) +:+ "," +:+ pretty (mouseProps.mouseY mp))
    35 (inject_Z (canvas.height cv - 30)).

(** ** Diagnostics compositor *)

(** The module-level objects that [drawDiagonstics] reads or updates. *)
Module globals.
Record t := mk {
  buttonBarToggles : gmap string bool;
  mouseProps : mouseProps.t;
  frameRateProps : frameRateProps.t
}.
End globals.

Definition drawDiagonstics (cv : canvas.t) (ctx : ctx2d.t) (timeStamp : Q)
    (g : globals.t) : ctx2d.t * globals.t :=
  let ctx := ctx2d.save ctx in
  let ctx :=
    if truthy (globals.buttonBarToggles g !! "showGrid")
    then drawGrid cv ctx else ctx in
  let ctx :=
    if truthy (globals.buttonBarToggles g !! "showCenter")
    then drawCenter cv ctx else ctx in
  (* the showTextBox block is commented out in the source *)
  let ctx :=
    if truthy (globals.buttonBarToggles g !! "showMouseCoordinates")
    then drawMouseMove (globals.mouseProps g) cv ctx else ctx in
  let '(ctx, g) :=
    if truthy (globals.buttonBarToggles g !! "showFPS")
    then
      let '(ctx, frp) := drawFrameRate cv ctx timeStamp (globals.frameRateProps g) in
      (ctx, globals.mk (globals.buttonBarToggles g) (globals.mouseProps g) frp)
    else (ctx, g) in
  (ctx2d.restore ctx, g).

(** ** Initialization *)

(** [target.name = source.name] *)
Definition copyToggle (name : string) (source target : gmap string bool) : gmap string bool :=
  match source !! name with
  | Some v => <[name := v]> target
  | None => delete name target
  end.

(** The toggles after [initGrafix canvas bbt]. *)
Definition initGrafix (bbt : gmap string bool) (toggles : gmap string bool) : gmap string bool :=
  let toggles := copyToggle "showCenter" bbt toggles in
  let toggles := copyToggle "showFPS" bbt toggles in
  let toggles := copyToggle "showGrid" bbt toggles in
  let toggles := copyToggle "showMouseCoordinates" bbt toggles in
  copyToggle "showTextBox" bbt toggles.

(** The ['mousemove'] listener that [initGrafix] registers on the canvas. *)
Definition mouseMoveListener (offsetX offsetY : Z) (mp : mouseProps.t) : mouseProps.t :=
  let mp := mouseProps.mk offsetX (mouseProps.mouseY mp) in
  mouseProps.mk (mouseProps.mouseX mp) offsetY.

(** ** Code point display *)

(** [codePoint.toString(16)] for an integer code point: lower-case
    hexadecimal digits, with a leading minus sign for a negative number. *)
Definition toString16 (codePoint : Z) : string :=
  HexadecimalString.NilEmpty.string_of_int (Z.to_hex_int codePoint).

Definition displayCodepoint (ctx : ctx2d.t) (codePoint : Z) (x y : Q) : ctx2d.t :=
  let ctx := ctx2d.save ctx in
  let ctx := ctx2d.set_fillStyle ctx "white" in
  let ctx := ctx2d.set_font ctx "12px monospace" in
  let ctx := ctx2d.fillText ctx (toString16 codePoint) x y in
  ctx2d.restore ctx.

(** ** Time keeper *)

Record TimeKeeper := mkTimeKeeper {
  frameCount : Z;       (* A frame is a rendering of world state *)
  generationCount : Z;  (* A generation is a color *)
  cycleCount : Z        (* A cycle is 4 generations *)
}.

Definition MAX_SAFE_INTEGER : Z := 2 ^ 53 - 1.

Definition timeKeeper : TimeKeeper := mkTimeKeeper 0 0 0.

Definition initTimeKeeper (tk : TimeKeeper) : TimeKeeper :=
  let tk := mkTimeKeeper 0 (generationCount tk) (cycleCount tk) in
  let tk := mkTimeKeeper (frameCount tk) 0 (cycleCount tk) in
  let tk := mkTimeKeeper (frameCount tk) (generationCount tk) 0 in
  tk.

Definition countGenerations (tk : TimeKeeper) : TimeKeeper :=
  let tk := mkTimeKeeper (frameCount tk) (generationCount tk + 1) (cycleCount tk) in
  let tk :=
    if generationCount tk =? MAX_SAFE_INTEGER
    then mkTimeKeeper (frameCount tk) 0 (cycleCount tk)
    else tk in
  mkTimeKeeper (frameCount tk) (generationCount tk) (generationCount tk / 4).

Definition countFrames (tk : TimeKeeper) : TimeKeeper :=
  let tk := mkTimeKeeper (frameCount tk + 1) (generationCount tk) (cycleCount tk) in
  if frameCount tk =? MAX_SAFE_INTEGER
  then mkTimeKeeper 0 (generationCount tk) (cycleCount tk)
  else tk.

(** The three lines that [reportTimeKeeperCounters] writes to the console. *)
Definition reportTimeKeeperCounters (tk : TimeKeeper) : list string :=
  [ "frameCount: " +:+ pretty (frameCount tk);
    "generationCount: " +:+ pretty (generationCount tk);
    "cycleCount: " +:+ pretty (cycleCount tk) ].

(** ** Harnesses for the statements *)

(** A call to one of the two primitive drawers, for sequences that mix
    them in any order. *)
Inductive drawCall :=
| CallLine (lp : lineProps.t)
| CallText (tp : textProps.t).

Definition issue (ctx : ctx2d.t) (d : drawCall) : ctx2d.t :=
  match d with
  | CallLine lp => drawLine ctx lp
  | CallText tp => drawText ctx tp
  end.

Definition issueAll (ctx : ctx2d.t) (ds : list drawCall) : ctx2d.t :=
  fold_left issue ds ctx.

(** What a call renders, from its own spec alone. *)
Definition renderingOf (d : drawCall) : ctx2d.rendered :=
  match d with
  | CallLine lp =>
      ctx2d.Stroked
        [ctx2d.MoveTo (lineProps.x1 lp) (lineProps.y1 lp);
         ctx2d.LineTo (lineProps.x2 lp) (lineProps.y2 lp)]
        (lineProps.strokeStyle lp) (lineProps.lineWidth lp)
  | CallText tp =>
      ctx2d.FilledText (textProps.message tp) (textProps.x tp) (textProps.y tp)
        (textProps.fillStyle tp) (textProps.font tp)
  end.

(** Successive frames: [drawFrameRate] called once per time stamp, on the
    same context and the same [frameRateProps] object. *)
Definition drawFrameRates (cv : canvas.t) (timeStamps : list Q)
    (s : ctx2d.t * frameRateProps.t) : ctx2d.t * frameRateProps.t :=
  fold_left (fun s timeStamp => drawFrameRate cv (fst s) timeStamp (snd s)) timeStamps s.

Definition recordFrames (timeStamps : list Q) (frp : frameRateProps.t) : frameRateProps.t :=
  fold_left (fun frp timeStamp => recordFrame timeStamp frp) timeStamps frp.

(** The retained time stamps are in increasing order and none is more than
    1000ms older than the latest. *)
Definition windowed (latest : Q) (times : list Q) : Prop :=
  StronglySorted Qlt times /\
  Forall (fun r => r <= latest /\ latest - r <= 1000)%Q times.

(** A context fresh from the browser, and a measurer under which the font
    matters: every glyph is as wide as the font name is long. *)
Definition freshContext : ctx2d.t :=
  ctx2d.mk (ctx2d.mkStyle "#000000" 1 "#000000" "10px sans-serif") [] [] [].

Definition sampleMeasure : ctx2d.measurer :=
  fun font text =>
    ctx2d.mkMetrics
      (inject_Z (Z.of_nat (String.length font) * Z.of_nat (String.length text))) 7 2.

Definition sampleText : textProps.t :=
  textProps.mk "Hi" 10 40 "white" "25px Arial".

(** Globals with every toggle on, and the same with showTextBox off. *)
Definition globalsAllOn : globals.t :=
  globals.mk buttonBarToggles (mouseProps.mk 3 4) frameRateProps_init.

Definition globalsTextBoxOff : globals.t :=
  globals.mk (<["showTextBox" := false]> buttonBarToggles) (mouseProps.mk 3 4)
    frameRateProps_init.

(** A time keeper whose counters are one step short of the maximum safe
    integer. *)
Definition timeKeeperNearMax : TimeKeeper :=
  mkTimeKeeper (2 ^ 53 - 2) (2 ^ 53 - 2) ((2 ^ 53 - 2) / 4).

(** The stops of a grid loop: 0, 30, 60, ... as long as they are below
    the limit. *)
Definition gridStops (limit : Z) : list Z :=
  map (fun i => 30 * Z.of_nat i) (seq 0 (Z.to_nat ((limit + 29) / 30))).

(** What one round of each grid loop renders: the line and its label. *)
Definition verticalRendering (cv : canvas.t) (x : Z) : list ctx2d.rendered :=
  [ ctx2d.Stroked
      [ctx2d.MoveTo (inject_Z x) 0; ctx2d.LineTo (inject_Z x) (inject_Z (canvas.height cv))]
      "#333" 2;
    ctx2d.FilledText (pretty x) (inject_Z x - 4) 20 "gray" "12px Arial" ].

Definition horizontalRendering (cv : canvas.t) (y : Z) : list ctx2d.rendered :=
  [ ctx2d.Stroked
      [ctx2d.MoveTo 0 (inject_Z y); ctx2d.LineTo (inject_Z (canvas.width cv)) (inject_Z y)]
      "#333" 2;
    ctx2d.FilledText (pretty y) 10 (inject_Z y + 4) "gray" "12px Arial" ].

Definition gridRendering (cv : canvas.t) : list ctx2d.rendered :=
  flat_map (verticalRendering cv) (gridStops (canvas.width cv)) ++
  flat_map (horizontalRendering cv) (gridStops (canvas.height cv)).

(** The reticle: a horizontal and a vertical line through the center. *)
Definition centerRendering (cv : canvas.t) : list ctx2d.rendered :=
  [ ctx2d.Stroked
      [ctx2d.MoveTo 0 (inject_Z (canvas.height cv) / 2);
       ctx2d.LineTo (inject_Z (canvas.width cv)) (inject_Z (canvas.height cv) / 2)]
      "darkgray" 4;
    ctx2d.Stroked
      [ctx2d.MoveTo (inject_Z (canvas.width cv) / 2) 0;
       ctx2d.LineTo (inject_Z (canvas.width cv) / 2) (inject_Z (canvas.height cv))]
      "darkgray" 4 ].

Definition mouseRendering (cv : canvas.t) (mp : mouseProps.t) : list ctx2d.rendered :=
  [ ctx2d.FilledText (pretty (mouseProps.mouseX mp) +:+ "," +:+ pretty (mouseProps.mouseY mp))
      35 (inject_Z (canvas.height cv - 30)) "yellow" "14px monospace" ].

Definition fpsRendering (cv : canvas.t) (fps : Z) : list ctx2d.rendered :=
  [ ctx2d.FilledText ("FPS: " +:+ pretty fps)
      (inject_Z (canvas.width cv - 100)) (inject_Z (canvas.height cv - 30))
      "yellow" "14px monospace" ].

(** The overlays of one frame, in the order the compositor draws them. *)
Definition diagnosticsRendering (cv : canvas.t) (timeStamp : Q) (g : globals.t)
    : list ctx2d.rendered :=
  (if truthy (globals.buttonBarToggles g !! "showGrid") then gridRendering cv else []) ++
  (if truthy (globals.buttonBarToggles g !! "showCenter") then centerRendering cv else []) ++
  (if truthy (globals.buttonBarToggles g !! "showMouseCoordinates")
   then mouseRendering cv (globals.mouseProps g) else []) ++
  (if truthy (globals.buttonBarToggles g !! "showFPS")
   then fpsRendering cv
          (frameRateProps.fps (recordFrame timeStamp (globals.frameRateProps g)))
   else []).

(** A time stamp is recent when it is less than 1000ms older than the
    current one: the negation of the test of the eviction loop. *)
Definition recent (timeStamp : Q) (t : Q) : bool := negb (Qle_bool t (timeStamp - 1000)).

(** Globals with every toggle off. *)
Definition togglesAllOff : gmap string bool :=
  <["showFPS" := false]>
  (<["showMouseCoordinates" := false]>
  (<["showTextBox" := false]>
  (<["showCenter" := false]>
  (<["showGrid" := false]> ∅)))).



(** * Properties *)

(** ** Primitive drawers *)

Lemma drawLine_unfold ctx lp :
  drawLine ctx lp =
  ctx2d.mk (ctx2d.current ctx) (ctx2d.saved ctx)
    [ctx2d.MoveTo (lineProps.x1 lp) (lineProps.y1 lp);
     ctx2d.LineTo (lineProps.x2 lp) (lineProps.y2 lp)]
    (ctx2d.output ctx ++ [renderingOf (CallLine lp)]).
Proof. reflexivity. Qed.

Lemma drawText_unfold ctx tp :
  drawText ctx tp =
  ctx2d.mk (ctx2d.current ctx) (ctx2d.saved ctx) (ctx2d.path ctx)
    (ctx2d.output ctx ++ [renderingOf (CallText tp)]).
Proof. reflexivity. Qed.

Lemma issue_style ctx d :
  ctx2d.current (issue ctx d) = ctx2d.current ctx /\
  ctx2d.saved (issue ctx d) = ctx2d.saved ctx /\
  ctx2d.output (issue ctx d) = ctx2d.output ctx ++ [renderingOf d].
Proof. destruct d; repeat split. Qed.

Lemma issueAll_style ds : forall ctx,
  ctx2d.current (issueAll ctx ds) = ctx2d.current ctx /\
  ctx2d.saved (issueAll ctx ds) = ctx2d.saved ctx /\
  ctx2d.output (issueAll ctx ds) = ctx2d.output ctx ++ map renderingOf ds.
Proof.
  induction ds as [|d ds IH]; intros ctx; simpl.
  - by rewrite app_nil_r.
  - destruct (IH (issue ctx d)) as (Hc & Hs & Ho).
    destruct (issue_style ctx d) as (Hc' & Hs' & Ho').
    unfold issueAll in *. rewrite Hc, Hs, Ho, Hc', Hs', Ho'.
    by rewrite <- app_assoc.
Qed.

(** C8: [drawLine] and [drawText] leave the style state of the context
    (strokeStyle, lineWidth, fillStyle, font) and its stack of saved states
    as they found them; hence after any sequence of the two drawers, in any
    order, the style state is the initial one and each call has rendered
    with the style of its own spec. *)
Theorem drawers_preserve_style :
  (forall ctx lp, ctx2d.current (drawLine ctx lp) = ctx2d.current ctx /\
                  ctx2d.saved (drawLine ctx lp) = ctx2d.saved ctx) /\
  (forall ctx tp, ctx2d.current (drawText ctx tp) = ctx2d.current ctx /\
                  ctx2d.saved (drawText ctx tp) = ctx2d.saved ctx) /\
  (forall ctx ds, ctx2d.current (issueAll ctx ds) = ctx2d.current ctx /\
                  ctx2d.saved (issueAll ctx ds) = ctx2d.saved ctx /\
                  ctx2d.output (issueAll ctx ds) =
                    ctx2d.output ctx ++ map renderingOf ds).
Proof.
  split; [|split].
  - intros ctx lp. by rewrite drawLine_unfold.
  - intros ctx tp. by rewrite drawText_unfold.
  - intros ctx ds. apply issueAll_style.
Qed.

(** ** Composite drawers *)

Lemma gridVertical_style cv x ctx :
  ctx2d.current (gridVertical cv x ctx) = ctx2d.current ctx /\
  ctx2d.saved (gridVertical cv x ctx) = ctx2d.saved ctx.
Proof.
  funelim (gridVertical cv x ctx); [|done].
  match goal with IH : _ /\ _ |- _ => destruct IH as [-> ->] end. done.
Qed.

Lemma gridHorizontal_style cv y ctx :
  ctx2d.current (gridHorizontal cv y ctx) = ctx2d.current ctx /\
  ctx2d.saved (gridHorizontal cv y ctx) = ctx2d.saved ctx.
Proof.
  funelim (gridHorizontal cv y ctx); [|done].
  match goal with IH : _ /\ _ |- _ => destruct IH as [-> ->] end. done.
Qed.

Lemma drawGrid_style cv ctx :
  ctx2d.current (drawGrid cv ctx) = ctx2d.current ctx /\
  ctx2d.saved (drawGrid cv ctx) = ctx2d.saved ctx.
Proof.
  unfold drawGrid.
  destruct (gridHorizontal_style cv 0 (gridVertical cv 0 ctx)) as [-> ->].
  apply gridVertical_style.
Qed.

(** Runs the two grid loops on a canvas of known size. *)
Ltac run_grid :=
  unfold drawGrid;
  repeat (progress (simp gridVertical gridHorizontal; cbn [canvas.width canvas.height]);
          repeat match goal with
                 | |- context [decide (?a < ?b)] =>
                     let d := eval vm_compute in (decide (a < b)) in
                     change (decide (a < b)) with d; cbn iota beta
                 end).

(** C7: on a canvas 90 wide and 60 high [drawGrid] renders, in this order
    and nothing else, the vertical lines at x = 0, 30, 60, each from y = 0
    to y = 60 and followed by its label "0", "30", "60", and the horizontal
    lines at y = 0, 30, each from x = 0 to x = 90 and followed by its label
    "0", "30". *)
Theorem drawGrid_90x60 (ctx : ctx2d.t) :
  ctx2d.output (drawGrid (canvas.mk 90 60) ctx) =
  ctx2d.output ctx ++
  [ ctx2d.Stroked [ctx2d.MoveTo 0 0; ctx2d.LineTo 0 60] "#333" 2;
    ctx2d.FilledText "0" (-4) 20 "gray" "12px Arial";
    ctx2d.Stroked [ctx2d.MoveTo 30 0; ctx2d.LineTo 30 60] "#333" 2;
    ctx2d.FilledText "30" 26 20 "gray" "12px Arial";
    ctx2d.Stroked [ctx2d.MoveTo 60 0; ctx2d.LineTo 60 60] "#333" 2;
    ctx2d.FilledText "60" 56 20 "gray" "12px Arial";
    ctx2d.Stroked [ctx2d.MoveTo 0 0; ctx2d.LineTo 90 0] "#333" 2;
    ctx2d.FilledText "0" 10 4 "gray" "12px Arial";
    ctx2d.Stroked [ctx2d.MoveTo 0 30; ctx2d.LineTo 90 30] "#333" 2;
    ctx2d.FilledText "30" 10 34 "gray" "12px Arial" ].
Proof.
  run_grid.
  rewrite !drawText_unfold, !drawLine_unfold. cbn [ctx2d.output].
  rewrite <- !app_assoc. f_equal.
Qed.

(** ** Text metrics *)

(** [getTextBox] asks the context for one measurement, under the font the
    context has when it is called, and changes nothing else. *)
Lemma getTextBox_context measure ctx tp :
  snd (getTextBox measure ctx tp) =
  ctx2d.mk (ctx2d.current ctx) (ctx2d.saved ctx) (ctx2d.path ctx)
    (ctx2d.output ctx ++
       [ctx2d.Measured (textProps.message tp) (ctx2d.font (ctx2d.current ctx))]).
Proof. reflexivity. Qed.

Lemma getTextBox_width measure ctx tp :
  textBox.textWidth (fst (getTextBox measure ctx tp)) =
  ctx2d.width (measure (ctx2d.font (ctx2d.current ctx)) (textProps.message tp)).
Proof. reflexivity. Qed.

(** C6: the box that [getTextBox] returns has
    textHeight = textBottom - textTop, textMid = textTop + textHeight / 2
    and textHorizonalCenter = textLeft + textWidth / 2, whatever the text
    spec and whatever the measurement. *)
Theorem getTextBox_invariants (measure : ctx2d.measurer) (ctx : ctx2d.t) (tp : textProps.t) :
  let tb := fst (getTextBox measure ctx tp) in
  textBox.textHeight tb = (textBox.textBottom tb - textBox.textTop tb)%Q /\
  textBox.textMid tb = (textBox.textTop tb + textBox.textHeight tb / 2)%Q /\
  textBox.textHorizonalCenter tb = (textBox.textLeft tb + textBox.textWidth tb / 2)%Q.
Proof. cbn. repeat split. Qed.

(** The remaining fields, for reference: the box sits at the anchor of the
    spec and is as wide as the measurement says. *)
Lemma getTextBox_horizontal measure ctx tp :
  let tb := fst (getTextBox measure ctx tp) in
  textBox.textLeft tb = textProps.x tp /\
  textBox.textRight tb = (textBox.textLeft tb + textBox.textWidth tb)%Q /\
  textBox.textVerticalCenter tb = textBox.textMid tb.
Proof. cbn. repeat split. Qed.

(** C2, as stated, fails: on a fresh context, whose font is
    "10px sans-serif", [getTextBox] measures a text spec whose font is
    "25px Arial" under "10px sans-serif"; it assigns neither fillStyle nor
    font, and the width it reports is not the width under the font of the
    spec. *)
Lemma getTextBox_keeps_surface_font :
  ctx2d.output (snd (getTextBox sampleMeasure freshContext sampleText)) =
    [ctx2d.Measured "Hi" "10px sans-serif"] /\
  ctx2d.output (snd (getTextBox sampleMeasure freshContext sampleText)) <>
    [ctx2d.Measured "Hi" (textProps.font sampleText)] /\
  ctx2d.current (snd (getTextBox sampleMeasure freshContext sampleText)) =
    ctx2d.current freshContext /\
  ctx2d.font (ctx2d.current (snd (getTextBox sampleMeasure freshContext sampleText))) <>
    textProps.font sampleText /\
  ctx2d.fillStyle (ctx2d.current (snd (getTextBox sampleMeasure freshContext sampleText))) <>
    textProps.fillStyle sampleText /\
  ~ (textBox.textWidth (fst (getTextBox sampleMeasure freshContext sampleText)) ==
     ctx2d.width (sampleMeasure (textProps.font sampleText) (textProps.message sampleText)))%Q.
Proof. cbn. repeat split; try discriminate. Qed.

(** C2, amended: [drawTextBox] assigns the fillStyle and the font of the
    text spec to the context and only then calls [getTextBox], so the one
    measurement it asks for is made under the font of the spec and the five
    guide lines are placed from that measurement; the two assignments are
    still in force when it returns.  [getTextBox] itself assigns nothing
    and measures under the font the context has when it is called. *)
Theorem drawTextBox_measures_with_spec_font
    (measure : ctx2d.measurer) (ctx : ctx2d.t) (cv : canvas.t) (tp : textProps.t) :
  let styled := ctx2d.set_font (ctx2d.set_fillStyle ctx (textProps.fillStyle tp))
                  (textProps.font tp) in
  let tb := fst (getTextBox measure styled tp) in
  let w := inject_Z (canvas.width cv) in
  let h := inject_Z (canvas.height cv) in
  ctx2d.output (drawTextBox measure ctx cv tp) =
    ctx2d.output ctx ++
    [ ctx2d.Measured (textProps.message tp) (textProps.font tp);
      ctx2d.Stroked [ctx2d.MoveTo 0 (textBox.textTop tb); ctx2d.LineTo w (textBox.textTop tb)]
        "yellow" 2;
      ctx2d.Stroked [ctx2d.MoveTo 0 (textBox.textBottom tb); ctx2d.LineTo w (textBox.textBottom tb)]
        "orange" 2;
      ctx2d.Stroked [ctx2d.MoveTo 0 (textBox.textMid tb); ctx2d.LineTo w (textBox.textMid tb)]
        "red" 2;
      ctx2d.Stroked [ctx2d.MoveTo (textBox.textLeft tb) 0; ctx2d.LineTo (textBox.textLeft tb) h]
        "cyan" 2;
      ctx2d.Stroked [ctx2d.MoveTo (textBox.textRight tb) 0; ctx2d.LineTo (textBox.textRight tb) h]
        "chartreuse" 2 ] /\
  textBox.textWidth tb =
    ctx2d.width (measure (textProps.font tp) (textProps.message tp)) /\
  ctx2d.fillStyle (ctx2d.current (drawTextBox measure ctx cv tp)) = textProps.fillStyle tp /\
  ctx2d.font (ctx2d.current (drawTextBox measure ctx cv tp)) = textProps.font tp /\
  ctx2d.output (snd (getTextBox measure ctx tp)) =
    ctx2d.output ctx ++
    [ctx2d.Measured (textProps.message tp) (ctx2d.font (ctx2d.current ctx))] /\
  ctx2d.current (snd (getTextBox measure ctx tp)) = ctx2d.current ctx /\
  textBox.textWidth (fst (getTextBox measure ctx tp)) =
    ctx2d.width (measure (ctx2d.font (ctx2d.current ctx)) (textProps.message tp)).
Proof.
  cbn. repeat split.
  rewrite <- !app_assoc. reflexivity.
Qed.

(** ** Diagnostics toggles *)

Lemma toggleListener_lookup toggle (bbt : gmap string bool) :
  toggleListener toggle bbt !! toggle = Some (negb (truthy (bbt !! toggle))).
Proof. unfold toggleListener. by rewrite lookup_insert_eq. Qed.

Lemma toggleListener_other toggle k (bbt : gmap string bool) :
  k ≠ toggle -> toggleListener toggle bbt !! k = bbt !! k.
Proof. intros Hne. unfold toggleListener. by rewrite lookup_insert_ne. Qed.

Lemma toggleListener_twice toggle (bbt : gmap string bool) :
  is_Some (bbt !! toggle) ->
  toggleListener toggle (toggleListener toggle bbt) = bbt.
Proof.
  intros [b Hb]. unfold toggleListener.
  rewrite lookup_insert_eq, insert_insert_eq, Hb. cbn.
  rewrite negb_involutive. by apply insert_id.
Qed.

(** C10: the click listener of the button that [addButtonToBar] appends for
    a toggle name present in the toggles is an involution on them; one
    click negates the named toggle and leaves every other toggle as it
    was. *)
Theorem addButtonToBar_click_involutive
    (caption toggle : string) (bar : list button) (bbt : gmap string bool) :
  is_Some (bbt !! toggle) ->
  exists b : button,
    addButtonToBar caption toggle bar = bar ++ [b] /\
    textContent b = caption /\
    click b (click b bbt) = bbt /\
    click b bbt !! toggle = negb <$> (bbt !! toggle) /\
    (forall k, k ≠ toggle -> click b bbt !! k = bbt !! k).
Proof.
  intros Hin. eexists. split; [reflexivity|]. cbn. repeat split.
  - by apply toggleListener_twice.
  - rewrite toggleListener_lookup. by destruct Hin as [v ->].
  - intros k Hk. by apply toggleListener_other.
Qed.

Lemma addButtonToBar_click_involutive_witness :
  exists b : button,
    addButtonToBar "Toggle Grid" "showGrid" [] = [] ++ [b] /\
    textContent b = "Toggle Grid" /\
    click b (click b buttonBarToggles) = buttonBarToggles /\
    click b buttonBarToggles !! "showGrid" = negb <$> (buttonBarToggles !! "showGrid") /\
    (forall k, k ≠ "showGrid" -> click b buttonBarToggles !! k = buttonBarToggles !! k).
Proof.
  apply (addButtonToBar_click_involutive "Toggle Grid" "showGrid" [] buttonBarToggles).
  vm_compute. eauto.
Defined.

(** Every button of the bar, clicked twice on toggles that have the five
    properties, gives them back. *)
Lemma buttonBar_clicks_involutive (bbt : gmap string bool) :
  dom bbt = dom buttonBarToggles ->
  Forall (fun b => click b (click b bbt) = bbt) buttonBar.
Proof.
  intros Hdom.
  assert (forall k, k ∈ dom buttonBarToggles -> is_Some (bbt !! k)) as Hin.
  { intros k Hk. apply elem_of_dom. by rewrite Hdom. }
  unfold buttonBar, addButtonToBar. cbn.
  repeat constructor; cbn; apply toggleListener_twice, Hin;
    apply elem_of_dom; vm_compute; eauto.
Qed.

(** ** Frame rate *)

Lemma drawFrameRate_snd cv ctx timeStamp frp :
  snd (drawFrameRate cv ctx timeStamp frp) = recordFrame timeStamp frp.
Proof. reflexivity. Qed.

Lemma drawFrameRates_snd cv timeStamps : forall ctx frp,
  snd (drawFrameRates cv timeStamps (ctx, frp)) = recordFrames timeStamps frp.
Proof.
  induction timeStamps as [|t ts IH]; intros ctx frp; [reflexivity|].
  unfold drawFrameRates, recordFrames in *. cbn [fold_left fst snd].
  unfold drawFrameRate at 2. apply IH.
Qed.

Lemma recordFrame_times timeStamp frp :
  frameRateProps.times (recordFrame timeStamp frp) =
  shiftOld timeStamp (frameRateProps.times frp) ++ [timeStamp].
Proof. unfold recordFrame. cbn. by destruct (10 <? _). Qed.

Lemma shiftOld_suffix timeStamp times :
  shiftOld timeStamp times `suffix_of` times.
Proof.
  induction times as [|t0 rest IH]; cbn; [done|].
  destruct (Qle_bool t0 (timeStamp - 1000)); [|done].
  by apply suffix_cons_r.
Qed.

(** On an increasing sequence the loop stops at the first recent time
    stamp, and all the later ones are recent too. *)
Lemma shiftOld_recent timeStamp times :
  StronglySorted Qlt times ->
  Forall (fun r => timeStamp - 1000 < r)%Q (shiftOld timeStamp times).
Proof.
  induction 1 as [|t0 rest Hsorted IH Hlt]; cbn; [constructor|].
  destruct (Qle_bool t0 (timeStamp - 1000)) eqn:Hold; [exact IH|].
  assert (timeStamp - 1000 < t0)%Q as Ht0.
  { apply Qnot_le_lt. intros Hle. apply Qle_bool_iff in Hle. congruence. }
  constructor; [exact Ht0|].
  eapply Forall_impl; [exact Hlt|]. intros r Hr. cbn in Hr. lra.
Qed.

Lemma recordFrame_windowed latest timeStamp frp :
  windowed latest (frameRateProps.times frp) ->
  (latest < timeStamp)%Q ->
  windowed timeStamp (frameRateProps.times (recordFrame timeStamp frp)).
Proof.
  intros [Hsorted Hwin] Hlt. rewrite recordFrame_times.
  destruct (shiftOld_suffix timeStamp (frameRateProps.times frp)) as [dropped Hdrop].
  pose proof (shiftOld_recent timeStamp _ Hsorted) as Hrecent.
  rewrite Hdrop in Hsorted, Hwin.
  apply StronglySorted_app_1_r in Hsorted. apply Forall_app in Hwin as [_ Hwin].
  rewrite Forall_forall in Hwin, Hrecent.
  split.
  - apply StronglySorted_app_2; [|done|repeat constructor].
    intros r t Hr ->%list_elem_of_singleton. specialize (Hwin r Hr). cbn in Hwin. lra.
  - apply Forall_app. split.
    + apply Forall_forall. intros r Hr.
      specialize (Hwin r Hr). specialize (Hrecent r Hr). cbn in *. lra.
    + repeat constructor; lra.
Qed.

Lemma recordFrames_windowed pre : forall frp lo latest,
  windowed lo (frameRateProps.times frp) ->
  StronglySorted Qlt (lo :: pre ++ [latest]) ->
  windowed latest (frameRateProps.times (recordFrames (pre ++ [latest]) frp)).
Proof.
  induction pre as [|p pre IH]; intros frp lo latest Hwin Hsorted.
  - apply (recordFrame_windowed lo); [done|].
    apply StronglySorted_cons in Hsorted as [Hlo _]. by inversion Hlo.
  - change (recordFrames ((p :: pre) ++ [latest]) frp)
      with (recordFrames (pre ++ [latest]) (recordFrame p frp)).
    apply StronglySorted_cons in Hsorted as [Hlo Hrest].
    apply (IH _ p); [|exact Hrest].
    apply (recordFrame_windowed lo); [done|]. by inversion Hlo.
Qed.

Lemma recordFrame_first timeStamp frp :
  frameRateProps.times frp = [] ->
  windowed timeStamp (frameRateProps.times (recordFrame timeStamp frp)).
Proof.
  intros Hempty. rewrite recordFrame_times, Hempty. cbn.
  split; repeat constructor; lra.
Qed.

(** C3: from the initial frame-rate state, eleven calls with the time
    stamps 0, 100, ..., 1000 leave the throttle counter at 0 and fps at 10,
    the number of time stamps retained at that point: the stamp 0 was
    shifted out by the eleventh call, 100 to 1000 remain. *)
Theorem drawFrameRate_eleven_frames (cv : canvas.t) (ctx : ctx2d.t) :
  let frp := snd (drawFrameRates cv
                    [0; 100; 200; 300; 400; 500; 600; 700; 800; 900; 1000]%Q
                    (ctx, frameRateProps_init)) in
  frameRateProps.counter frp = 0 /\
  frameRateProps.fps frp = 10 /\
  frameRateProps.fps frp = Z.of_nat (length (frameRateProps.times frp)) /\
  frameRateProps.times frp = [100; 200; 300; 400; 500; 600; 700; 800; 900; 1000]%Q.
Proof. cbn zeta. rewrite drawFrameRates_snd. vm_compute. done. Qed.

(** Until the eleventh call fps keeps its initial value. *)
Lemma drawFrameRate_ten_frames (cv : canvas.t) (ctx : ctx2d.t) :
  let frp := snd (drawFrameRates cv
                    [0; 100; 200; 300; 400; 500; 600; 700; 800; 900]%Q
                    (ctx, frameRateProps_init)) in
  frameRateProps.counter frp = 10 /\
  frameRateProps.fps frp = 0 /\
  frameRateProps.times frp = [0; 100; 200; 300; 400; 500; 600; 700; 800; 900]%Q.
Proof. cbn zeta. rewrite drawFrameRates_snd. vm_compute. done. Qed.

(** C4: when [drawFrameRate] is called with strictly increasing time
    stamps on a state whose [times] is empty, then after each call (that
    is, after every non-empty prefix of the calls) the most recent time
    stamp is the last one retained and every retained time stamp is at
    most 1000ms older than it. *)
Theorem drawFrameRate_window
    (cv : canvas.t) (ctx : ctx2d.t) (frp : frameRateProps.t)
    (timeStamps pre : list Q) (latest : Q) :
  frameRateProps.times frp = [] ->
  StronglySorted Qlt timeStamps ->
  (pre ++ [latest]) `prefix_of` timeStamps ->
  let frp' := snd (drawFrameRates cv (pre ++ [latest]) (ctx, frp)) in
  last (frameRateProps.times frp') = Some latest /\
  Forall (fun retained => latest - retained <= 1000)%Q (frameRateProps.times frp').
Proof.
  intros Hempty Hsorted [later Hpre]. cbn zeta. rewrite drawFrameRates_snd.
  rewrite Hpre in Hsorted. apply StronglySorted_app_1_l in Hsorted.
  assert (windowed latest (frameRateProps.times (recordFrames (pre ++ [latest]) frp)))
    as [_ Hwin].
  { destruct pre as [|p pre].
    - by apply recordFrame_first.
    - change (recordFrames ((p :: pre) ++ [latest]) frp)
        with (recordFrames (pre ++ [latest]) (recordFrame p frp)).
      apply (recordFrames_windowed pre _ p); [|exact Hsorted].
      by apply recordFrame_first. }
  split.
  - unfold recordFrames. rewrite fold_left_app. cbn.
    rewrite recordFrame_times. apply last_snoc.
  - eapply Forall_impl; [exact Hwin|]. by intros r [_ Hr].
Qed.

Lemma drawFrameRate_window_witness :
  last (frameRateProps.times
          (snd (drawFrameRates (canvas.mk 90 60) ([0; 600] ++ [1200])%Q
                  (freshContext, frameRateProps_init)))) = Some 1200%Q /\
  Forall (fun retained => 1200 - retained <= 1000)%Q
    (frameRateProps.times
       (snd (drawFrameRates (canvas.mk 90 60) ([0; 600] ++ [1200])%Q
               (freshContext, frameRateProps_init)))).
Proof.
  apply (drawFrameRate_window (canvas.mk 90 60) freshContext frameRateProps_init
           [0; 600; 1200; 1500]%Q [0; 600]%Q 1200%Q).
  - reflexivity.
  - repeat constructor.
  - by exists [1500%Q].
Defined.

(** ** Diagnostics compositor *)

(** [drawDiagonstics] reads the toggles and never writes them, and leaves
    the style state of the context as it found it. *)
Lemma drawDiagonstics_reads_only cv ctx timeStamp g :
  globals.buttonBarToggles (snd (drawDiagonstics cv ctx timeStamp g)) =
    globals.buttonBarToggles g /\
  globals.mouseProps (snd (drawDiagonstics cv ctx timeStamp g)) = globals.mouseProps g.
Proof.
  unfold drawDiagonstics.
  by destruct (truthy (globals.buttonBarToggles g !! "showFPS")).
Qed.

(** With every toggle off nothing is drawn and nothing changes. *)
Lemma drawDiagonstics_all_off cv ctx timeStamp g :
  (forall k, truthy (globals.buttonBarToggles g !! k) = false) ->
  drawDiagonstics cv ctx timeStamp g = (ctx, g).
Proof.
  intros Hoff. unfold drawDiagonstics. rewrite !Hoff. by destruct ctx.
Qed.

Lemma initGrafix_lookup (bbt toggles : gmap string bool) k :
  k ∈ dom buttonBarToggles ->
  initGrafix bbt toggles !! k = bbt !! k.
Proof.
  intros Hk. apply elem_of_dom in Hk as [v Hv].
  assert (k ∈ ["showFPS"; "showMouseCoordinates"; "showTextBox"; "showCenter"; "showGrid"])
    as Hin.
  { destruct (decide (k ∈ ["showFPS"; "showMouseCoordinates"; "showTextBox";
                            "showCenter"; "showGrid"])) as [|Hout]; [done|].
    exfalso. unfold buttonBarToggles in Hv.
    rewrite !lookup_insert_ne, lookup_empty in Hv; [done|..];
      intros <-; apply Hout; set_solver. }
  unfold initGrafix, copyToggle.
  repeat (apply elem_of_cons in Hin as [->|Hin]);
    [..|by apply elem_of_nil in Hin];
    repeat (match goal with
            | |- context [match ?o with Some _ => _ | None => _ end] => destruct o eqn:?
            end);
    simplify_map_eq; done.
Qed.

(** C9: two runs of [drawDiagonstics], on the same canvas, context and
    time stamp, from globals that differ at most in the showTextBox toggle,
    end with the same context (hence the same rendering) and the same mouse
    and frame-rate properties; the toggles of each run are left as they
    were. *)
Theorem drawDiagonstics_ignores_showTextBox
    (cv : canvas.t) (ctx : ctx2d.t) (timeStamp : Q) (g1 g2 : globals.t) :
  (forall k, k ≠ "showTextBox" ->
     globals.buttonBarToggles g1 !! k = globals.buttonBarToggles g2 !! k) ->
  globals.mouseProps g1 = globals.mouseProps g2 ->
  globals.frameRateProps g1 = globals.frameRateProps g2 ->
  let r1 := drawDiagonstics cv ctx timeStamp g1 in
  let r2 := drawDiagonstics cv ctx timeStamp g2 in
  fst r1 = fst r2 /\
  globals.mouseProps (snd r1) = globals.mouseProps (snd r2) /\
  globals.frameRateProps (snd r1) = globals.frameRateProps (snd r2) /\
  globals.buttonBarToggles (snd r1) = globals.buttonBarToggles g1 /\
  globals.buttonBarToggles (snd r2) = globals.buttonBarToggles g2.
Proof.
  intros Htoggles Hmouse Hrate. cbn zeta. unfold drawDiagonstics.
  rewrite (Htoggles "showGrid"), (Htoggles "showCenter"),
    (Htoggles "showMouseCoordinates"), (Htoggles "showFPS"), Hmouse, Hrate by done.
  destruct (truthy (globals.buttonBarToggles g2 !! "showFPS")); cbn; by repeat split.
Qed.

Lemma drawDiagonstics_ignores_showTextBox_witness :
  fst (drawDiagonstics (canvas.mk 90 60) freshContext 0 globalsAllOn) =
    fst (drawDiagonstics (canvas.mk 90 60) freshContext 0 globalsTextBoxOff) /\
  globals.mouseProps (snd (drawDiagonstics (canvas.mk 90 60) freshContext 0 globalsAllOn)) =
    globals.mouseProps
      (snd (drawDiagonstics (canvas.mk 90 60) freshContext 0 globalsTextBoxOff)) /\
  globals.frameRateProps (snd (drawDiagonstics (canvas.mk 90 60) freshContext 0 globalsAllOn)) =
    globals.frameRateProps
      (snd (drawDiagonstics (canvas.mk 90 60) freshContext 0 globalsTextBoxOff)) /\
  globals.buttonBarToggles
      (snd (drawDiagonstics (canvas.mk 90 60) freshContext 0 globalsAllOn)) =
    globals.buttonBarToggles globalsAllOn /\
  globals.buttonBarToggles
      (snd (drawDiagonstics (canvas.mk 90 60) freshContext 0 globalsTextBoxOff)) =
    globals.buttonBarToggles globalsTextBoxOff.
Proof.
  apply (drawDiagonstics_ignores_showTextBox (canvas.mk 90 60) freshContext 0
           globalsAllOn globalsTextBoxOff).
  - intros k Hk. cbn. by rewrite lookup_insert_ne.
  - reflexivity.
  - reflexivity.
Defined.

(** ** Time keeper *)

Lemma countGenerations_generationCount tk :
  generationCount (countGenerations tk) =
  if generationCount tk + 1 =? MAX_SAFE_INTEGER then 0 else generationCount tk + 1.
Proof. unfold countGenerations. cbn. by destruct (_ =? _). Qed.

Lemma countFrames_frameCount tk :
  frameCount (countFrames tk) =
  if frameCount tk + 1 =? MAX_SAFE_INTEGER then 0 else frameCount tk + 1.
Proof. unfold countFrames. cbn. by destruct (_ =? _). Qed.

(** X25: a counter never holds the maximum safe integer after an advance,
    whatever it held before. *)
Lemma counters_below_max tk :
  generationCount (countGenerations tk) ≠ MAX_SAFE_INTEGER /\
  frameCount (countFrames tk) ≠ MAX_SAFE_INTEGER.
Proof.
  rewrite countGenerations_generationCount, countFrames_frameCount.
  split; destruct (_ =? _) eqn:E;
    solve [ by apply Z.eqb_neq in E | by vm_compute ].
Qed.

(** C1, as stated, fails: with both counters at 2^53 - 2, one advance
    yields 0 and not 2^53 - 1, and a second advance yields 1 and not 0. *)
Lemma counters_skip_max :
  generationCount timeKeeperNearMax = MAX_SAFE_INTEGER - 1 /\
  frameCount timeKeeperNearMax = MAX_SAFE_INTEGER - 1 /\
  generationCount (countGenerations timeKeeperNearMax) ≠ MAX_SAFE_INTEGER /\
  generationCount (countGenerations (countGenerations timeKeeperNearMax)) ≠ 0 /\
  frameCount (countFrames timeKeeperNearMax) ≠ MAX_SAFE_INTEGER /\
  frameCount (countFrames (countFrames timeKeeperNearMax)) ≠ 0.
Proof. vm_compute. repeat split; discriminate. Qed.

(** C1, amended: from a counter equal to the maximum safe integer minus 1
    (2^53 - 2) one advance reaches the maximum and wraps at once, so the
    counter reads 0 after it; a second advance yields 1. *)
Theorem counters_wrap_at_max (tk : TimeKeeper) :
  (generationCount tk = MAX_SAFE_INTEGER - 1 ->
     generationCount (countGenerations tk) = 0 /\
     generationCount (countGenerations (countGenerations tk)) = 1) /\
  (frameCount tk = MAX_SAFE_INTEGER - 1 ->
     frameCount (countFrames tk) = 0 /\
     frameCount (countFrames (countFrames tk)) = 1).
Proof.
  split; intros H.
  - rewrite !countGenerations_generationCount, H. done.
  - rewrite !countFrames_frameCount, H. done.
Qed.

Lemma counters_wrap_at_max_witness :
  (generationCount (countGenerations timeKeeperNearMax) = 0 /\
   generationCount (countGenerations (countGenerations timeKeeperNearMax)) = 1) /\
  (frameCount (countFrames timeKeeperNearMax) = 0 /\
   frameCount (countFrames (countFrames timeKeeperNearMax)) = 1).
Proof.
  pose proof (counters_wrap_at_max timeKeeperNearMax) as [Hg Hf].
  split; [apply Hg | apply Hf]; reflexivity.
Defined.

Lemma countGenerations_iter (n : nat) : forall tk,
  0 <= generationCount tk ->
  generationCount tk + Z.of_nat n < MAX_SAFE_INTEGER ->
  generationCount (Nat.iter n countGenerations tk) = generationCount tk + Z.of_nat n.
Proof.
  induction n as [|n IH]; intros tk Hpos Hlt; [cbn; lia|].
  rewrite Nat.iter_succ, countGenerations_generationCount, IH by lia.
  destruct (_ =? _) eqn:E; [apply Z.eqb_eq in E|]; lia.
Qed.

Lemma cycleCount_iter (n : nat) tk :
  cycleCount (Nat.iter n countGenerations (initTimeKeeper tk)) =
  generationCount (Nat.iter n countGenerations (initTimeKeeper tk)) / 4.
Proof. by destruct n. Qed.

(** C5: cycleCount = floor (generationCount / 4) holds after
    [initTimeKeeper] and after every call of [countGenerations]; and 4k
    calls of [countGenerations] from the zero state, with 4k below the
    maximum safe integer, give cycleCount = k. *)
Theorem cycleCount_invariant :
  (forall tk, cycleCount (initTimeKeeper tk) = generationCount (initTimeKeeper tk) / 4) /\
  (forall tk, cycleCount (countGenerations tk) = generationCount (countGenerations tk) / 4) /\
  (forall tk k, 0 <= k -> 4 * k < MAX_SAFE_INTEGER ->
     cycleCount (Nat.iter (Z.to_nat (4 * k)) countGenerations (initTimeKeeper tk)) = k).
Proof.
  split; [|split].
  - reflexivity.
  - reflexivity.
  - intros tk k Hk Hlt.
    rewrite cycleCount_iter, countGenerations_iter; cbn [initTimeKeeper generationCount];
      try lia.
    rewrite Z2Nat.id, Z.add_0_l, Z.mul_comm by lia. by apply Z.div_mul.
Qed.

Lemma cycleCount_invariant_witness :
  cycleCount (Nat.iter (Z.to_nat (4 * 3)) countGenerations (initTimeKeeper timeKeeper)) = 3.
Proof.
  destruct cycleCount_invariant as (_ & _ & H).
  apply (H timeKeeper 3); vm_compute; congruence.
Defined.

(** * Further properties *)

(** ** The grid on any canvas *)

Lemma gridVertical_step cv x ctx :
  gridVertical cv x ctx =
  if decide (x < canvas.width cv)
  then gridVertical cv (x + 30)
         (drawText
            (drawLine ctx
               (lineProps.mk (inject_Z x) 0 (inject_Z x) (inject_Z (canvas.height cv)) "#333" 2))
            (textProps.mk (pretty x) (inject_Z x - 4) 20 "gray" "12px Arial"))
  else ctx.
Proof.
  funelim (gridVertical cv x ctx);
    match goal with H : decide _ = _ |- _ => rewrite H end; reflexivity.
Qed.

Lemma gridHorizontal_step cv y ctx :
  gridHorizontal cv y ctx =
  if decide (y < canvas.height cv)
  then gridHorizontal cv (y + 30)
         (drawText
            (drawLine ctx
               (lineProps.mk 0 (inject_Z y) (inject_Z (canvas.width cv)) (inject_Z y) "#333" 2))
            (textProps.mk (pretty y) 10 (inject_Z y + 4) "gray" "12px Arial"))
  else ctx.
Proof.
  funelim (gridHorizontal cv y ctx);
    match goal with H : decide _ = _ |- _ => rewrite H end; reflexivity.
Qed.

Lemma gridStops_bound (limit : Z) :
  let n := Z.of_nat (Z.to_nat ((limit + 29) / 30)) in
  limit <= 30 * n /\ (0 < n -> 30 * (n - 1) < limit).
Proof.
  cbn zeta. pose proof (Z.div_mod (limit + 29) 30 ltac:(lia)) as Hdm.
  pose proof (Z.mod_pos_bound (limit + 29) 30 ltac:(lia)) as Hmod.
  lia.
Qed.

Lemma elem_of_gridStops (limit x : Z) :
  x ∈ gridStops limit <-> 0 <= x < limit /\ (30 | x).
Proof.
  unfold gridStops. pose proof (gridStops_bound limit) as [Hup Hlow]. cbn zeta in *.
  rewrite list_elem_of_fmap. split.
  - intros (i & -> & Hi). apply elem_of_seq in Hi.
    split; [lia|]. exists (Z.of_nat i). lia.
  - intros [Hx [q Hq]]. exists (Z.to_nat q). split; [lia|].
    apply elem_of_seq. lia.
Qed.

Section GridLoops.

Variable cv : canvas.t.

Lemma gridVertical_from (m : nat) : forall (k : nat) ctx,
  (k + m)%nat = Z.to_nat ((canvas.width cv + 29) / 30) ->
  ctx2d.output (gridVertical cv (30 * Z.of_nat k) ctx) =
  ctx2d.output ctx ++
  flat_map (verticalRendering cv) (map (fun i => 30 * Z.of_nat i) (seq k m)).
Proof.
  pose proof (gridStops_bound (canvas.width cv)) as [Hup Hlow]. cbn zeta in *.
  induction m as [|m IH]; intros k ctx Hk; rewrite gridVertical_step.
  - rewrite decide_False by lia. cbn. by rewrite app_nil_r.
  - rewrite decide_True by lia.
    replace (30 * Z.of_nat k + 30) with (30 * Z.of_nat (S k)) by lia.
    rewrite IH by lia. rewrite drawText_unfold, drawLine_unfold. cbn.
    by rewrite <- !app_assoc.
Qed.

Lemma gridHorizontal_from (m : nat) : forall (k : nat) ctx,
  (k + m)%nat = Z.to_nat ((canvas.height cv + 29) / 30) ->
  ctx2d.output (gridHorizontal cv (30 * Z.of_nat k) ctx) =
  ctx2d.output ctx ++
  flat_map (horizontalRendering cv) (map (fun i => 30 * Z.of_nat i) (seq k m)).
Proof.
  pose proof (gridStops_bound (canvas.height cv)) as [Hup Hlow]. cbn zeta in *.
  induction m as [|m IH]; intros k ctx Hk; rewrite gridHorizontal_step.
  - rewrite decide_False by lia. cbn. by rewrite app_nil_r.
  - rewrite decide_True by lia.
    replace (30 * Z.of_nat k + 30) with (30 * Z.of_nat (S k)) by lia.
    rewrite IH by lia. rewrite drawText_unfold, drawLine_unfold. cbn.
    by rewrite <- !app_assoc.
Qed.

Lemma drawGrid_output ctx :
  ctx2d.output (drawGrid cv ctx) = ctx2d.output ctx ++ gridRendering cv.
Proof.
  unfold drawGrid, gridRendering, gridStops.
  change 0 with (30 * Z.of_nat 0).
  rewrite (gridHorizontal_from (Z.to_nat ((canvas.height cv + 29) / 30)) 0) by done.
  rewrite (gridVertical_from (Z.to_nat ((canvas.width cv + 29) / 30)) 0) by done.
  by rewrite <- app_assoc.
Qed.

End GridLoops.

(** X1: on any canvas and context [drawGrid] renders, after what the
    context already holds, one line and label for each multiple of 30 from
    0 up to but excluding the width, in increasing order, and then one line
    and label for each multiple of 30 from 0 up to but excluding the
    height. *)
Theorem drawGrid_rendering (cv : canvas.t) (ctx : ctx2d.t) :
  ctx2d.output (drawGrid cv ctx) =
    ctx2d.output ctx ++
    flat_map (verticalRendering cv) (gridStops (canvas.width cv)) ++
    flat_map (horizontalRendering cv) (gridStops (canvas.height cv)) /\
  (forall limit x, x ∈ gridStops limit <-> 0 <= x < limit /\ (30 | x)) /\
  (forall limit, StronglySorted Z.lt (gridStops limit)).
Proof.
  split; [apply drawGrid_output|]. split; [apply elem_of_gridStops|].
  intros limit. unfold gridStops.
  generalize (Z.to_nat ((limit + 29) / 30)) as n. generalize 0%nat as k.
  intros k n. revert k. induction n as [|n IH]; intros k; cbn; constructor.
  - apply IH.
  - apply Forall_forall. intros x (i & -> & Hi)%list_elem_of_fmap.
    apply elem_of_seq in Hi. lia.
Qed.

(** X2: a canvas without extent gets no grid: with a width and a height
    that are not positive [drawGrid] returns the context as it got it. *)
Theorem drawGrid_empty_canvas (cv : canvas.t) (ctx : ctx2d.t) :
  canvas.width cv <= 0 -> canvas.height cv <= 0 -> drawGrid cv ctx = ctx.
Proof.
  intros Hw Hh. unfold drawGrid.
  rewrite (gridVertical_step cv 0), decide_False by lia.
  rewrite gridHorizontal_step, decide_False by lia. done.
Qed.

Lemma drawGrid_empty_canvas_witness :
  drawGrid (canvas.mk 0 (-5)) freshContext = freshContext.
Proof.
  apply (drawGrid_empty_canvas (canvas.mk 0 (-5)) freshContext); cbn; lia.
Defined.

(** X3: the number of entries that [drawGrid] renders is twice the number
    of grid stops: with a positive width and height, two for every started
    30 pixels of width and two for every started 30 pixels of height. *)
Theorem drawGrid_count (cv : canvas.t) (ctx : ctx2d.t) :
  0 < canvas.width cv -> 0 < canvas.height cv ->
  Z.of_nat (length (ctx2d.output (drawGrid cv ctx))) =
  Z.of_nat (length (ctx2d.output ctx)) +
  2 * ((canvas.width cv + 29) / 30) + 2 * ((canvas.height cv + 29) / 30).
Proof.
  intros Hw Hh. rewrite drawGrid_output. unfold gridRendering, gridStops.
  assert (forall (f : Z -> list ctx2d.rendered) l,
            (forall x, length (f x) = 2%nat) -> length (flat_map f l) = (2 * length l)%nat)
    as Hlen.
  { intros f l Hf. induction l as [|a l IH]; cbn; [done|].
    rewrite length_app, Hf, IH. lia. }
  rewrite !length_app, !Hlen, !length_map, !length_seq by done.
  pose proof (Z.div_pos (canvas.width cv + 29) 30 ltac:(lia) ltac:(lia)).
  pose proof (Z.div_pos (canvas.height cv + 29) 30 ltac:(lia) ltac:(lia)).
  lia.
Qed.

Lemma drawGrid_count_witness :
  Z.of_nat (length (ctx2d.output (drawGrid (canvas.mk 100 45) freshContext))) =
  Z.of_nat (length (ctx2d.output freshContext)) +
  2 * ((canvas.width (canvas.mk 100 45) + 29) / 30) +
  2 * ((canvas.height (canvas.mk 100 45) + 29) / 30).
Proof.
  apply (drawGrid_count (canvas.mk 100 45) freshContext); cbn; lia.
Defined.

(** ** The compositor *)

Lemma drawCenter_unfold cv ctx :
  drawCenter cv ctx =
  ctx2d.mk (ctx2d.current ctx) (ctx2d.saved ctx)
    [ctx2d.MoveTo (inject_Z (canvas.width cv) / 2) 0;
     ctx2d.LineTo (inject_Z (canvas.width cv) / 2) (inject_Z (canvas.height cv))]
    (ctx2d.output ctx ++ centerRendering cv).
Proof.
  unfold drawCenter. cbn zeta. rewrite !drawLine_unfold. cbn.
  by rewrite <- app_assoc.
Qed.

(** An overlay that is drawn only when its toggle is on. *)
Lemma overlay_if (b : bool) (f : ctx2d.t -> ctx2d.t) (r : list ctx2d.rendered) ctx :
  ctx2d.saved (f ctx) = ctx2d.saved ctx ->
  ctx2d.output (f ctx) = ctx2d.output ctx ++ r ->
  ctx2d.saved (if b then f ctx else ctx) = ctx2d.saved ctx /\
  ctx2d.output (if b then f ctx else ctx) = ctx2d.output ctx ++ (if b then r else []).
Proof. intros Hs Ho. destruct b; [done|]. by rewrite app_nil_r. Qed.

Lemma drawDiagonstics_fst cv ctx timeStamp g :
  fst (drawDiagonstics cv ctx timeStamp g) =
  ctx2d.restore
    (let ctx := ctx2d.save ctx in
     let ctx := if truthy (globals.buttonBarToggles g !! "showGrid")
                then drawGrid cv ctx else ctx in
     let ctx := if truthy (globals.buttonBarToggles g !! "showCenter")
                then drawCenter cv ctx else ctx in
     let ctx := if truthy (globals.buttonBarToggles g !! "showMouseCoordinates")
                then drawMouseMove (globals.mouseProps g) cv ctx else ctx in
     if truthy (globals.buttonBarToggles g !! "showFPS")
     then fst (drawFrameRate cv ctx timeStamp (globals.frameRateProps g)) else ctx).
Proof.
  unfold drawDiagonstics. cbn zeta.
  by destruct (truthy (globals.buttonBarToggles g !! "showFPS")).
Qed.

Lemma drawDiagonstics_context cv ctx timeStamp g :
  ctx2d.current (fst (drawDiagonstics cv ctx timeStamp g)) = ctx2d.current ctx /\
  ctx2d.saved (fst (drawDiagonstics cv ctx timeStamp g)) = ctx2d.saved ctx /\
  ctx2d.output (fst (drawDiagonstics cv ctx timeStamp g)) =
    ctx2d.output ctx ++ diagnosticsRendering cv timeStamp g.
Proof.
  rewrite drawDiagonstics_fst. cbn zeta. unfold diagnosticsRendering.
  set (c0 := ctx2d.save ctx).
  destruct (overlay_if (truthy (globals.buttonBarToggles g !! "showGrid"))
              (drawGrid cv) (gridRendering cv) c0) as [Hs1 Ho1];
    [apply drawGrid_style | apply drawGrid_output |].
  set (c1 := if truthy (globals.buttonBarToggles g !! "showGrid") then _ else _) in *.
  destruct (overlay_if (truthy (globals.buttonBarToggles g !! "showCenter"))
              (drawCenter cv) (centerRendering cv) c1) as [Hs2 Ho2];
    [by rewrite drawCenter_unfold | by rewrite drawCenter_unfold |].
  set (c2 := if truthy (globals.buttonBarToggles g !! "showCenter") then _ else _) in *.
  destruct (overlay_if (truthy (globals.buttonBarToggles g !! "showMouseCoordinates"))
              (drawMouseMove (globals.mouseProps g) cv)
              (mouseRendering cv (globals.mouseProps g)) c2) as [Hs3 Ho3];
    [done | done |].
  set (c3 := if truthy (globals.buttonBarToggles g !! "showMouseCoordinates")
             then _ else _) in *.
  destruct (overlay_if (truthy (globals.buttonBarToggles g !! "showFPS"))
              (fun c => fst (drawFrameRate cv c timeStamp (globals.frameRateProps g)))
              (fpsRendering cv
                 (frameRateProps.fps (recordFrame timeStamp (globals.frameRateProps g))))
              c3) as [Hs4 Ho4];
    [done | done |].
  cbn beta in Hs4, Ho4.
  set (c4 := if truthy (globals.buttonBarToggles g !! "showFPS") then _ else _) in *.
  assert (ctx2d.saved c4 = ctx2d.current ctx :: ctx2d.saved ctx) as Hsaved.
  { by rewrite Hs4, Hs3, Hs2, Hs1. }
  unfold ctx2d.restore. rewrite Hsaved. cbn.
  rewrite Ho4, Ho3, Ho2, Ho1. cbn. by rewrite <- !app_assoc.
Qed.

(** X4: whatever the toggles, [drawDiagonstics] hands the context back
    with the style state and the stack of saved states it had on entry:
    the fill style and font that the mouse and FPS overlays assign do not
    leak into what is drawn next. *)
Theorem drawDiagonstics_preserves_style
    (cv : canvas.t) (ctx : ctx2d.t) (timeStamp : Q) (g : globals.t) :
  ctx2d.current (fst (drawDiagonstics cv ctx timeStamp g)) = ctx2d.current ctx /\
  ctx2d.saved (fst (drawDiagonstics cv ctx timeStamp g)) = ctx2d.saved ctx.
Proof.
  destruct (drawDiagonstics_context cv ctx timeStamp g) as (Hc & Hs & _). done.
Qed.

(** X5: what [drawDiagonstics] renders is added after what the context
    already holds and does not depend on the style the context comes with:
    the grid, then the reticle, then the mouse coordinates, then the FPS
    text, each present exactly when its toggle is truthy; the FPS text shows
    the value of fps after this frame has been recorded. *)
Theorem drawDiagonstics_rendering
    (cv : canvas.t) (ctx : ctx2d.t) (timeStamp : Q) (g : globals.t) :
  ctx2d.output (fst (drawDiagonstics cv ctx timeStamp g)) =
  ctx2d.output ctx ++
  (if truthy (globals.buttonBarToggles g !! "showGrid") then gridRendering cv else []) ++
  (if truthy (globals.buttonBarToggles g !! "showCenter") then centerRendering cv else []) ++
  (if truthy (globals.buttonBarToggles g !! "showMouseCoordinates")
   then mouseRendering cv (globals.mouseProps g) else []) ++
  (if truthy (globals.buttonBarToggles g !! "showFPS")
   then fpsRendering cv
          (frameRateProps.fps (recordFrame timeStamp (globals.frameRateProps g)))
   else []).
Proof.
  destruct (drawDiagonstics_context cv ctx timeStamp g) as (_ & _ & Ho). exact Ho.
Qed.

(** X6: [drawDiagonstics] records the frame exactly when showFPS is
    truthy: then the frame-rate properties are those after [recordFrame],
    otherwise the globals are left as they were, so frames drawn while the
    FPS overlay is off are not counted. *)
Theorem drawDiagonstics_records_frame
    (cv : canvas.t) (ctx : ctx2d.t) (timeStamp : Q) (g : globals.t) :
  snd (drawDiagonstics cv ctx timeStamp g) =
  if truthy (globals.buttonBarToggles g !! "showFPS")
  then globals.mk (globals.buttonBarToggles g) (globals.mouseProps g)
         (recordFrame timeStamp (globals.frameRateProps g))
  else g.
Proof.
  unfold drawDiagonstics. cbn zeta.
  by destruct (truthy (globals.buttonBarToggles g !! "showFPS")).
Qed.

Lemma initGrafix_other (bbt toggles : gmap string bool) k :
  k ∉ dom buttonBarToggles ->
  initGrafix bbt toggles !! k = toggles !! k.
Proof.
  intros Hk.
  assert (k ≠ "showCenter" /\ k ≠ "showFPS" /\ k ≠ "showGrid" /\
          k ≠ "showMouseCoordinates" /\ k ≠ "showTextBox") as (H1 & H2 & H3 & H4 & H5).
  { repeat split; intros ->; apply Hk; apply elem_of_dom; vm_compute; eauto. }
  unfold initGrafix, copyToggle.
  repeat (match goal with
          | |- context [match ?o with Some _ => _ | None => _ end] => destruct o eqn:?
          end);
    simplify_map_eq; done.
Qed.

(** X7: after [initGrafix] each of the five toggles reads what the given
    configuration holds for it (a property missing there reads as
    undefined afterwards, whatever the toggle was before), and no other
    property of the toggles is touched. *)
Theorem initGrafix_copies_five (bbt toggles : gmap string bool) (k : string) :
  initGrafix bbt toggles !! k =
  if decide (k ∈ dom buttonBarToggles) then bbt !! k else toggles !! k.
Proof.
  destruct (decide (k ∈ dom buttonBarToggles)).
  - by apply initGrafix_lookup.
  - by apply initGrafix_other.
Qed.

(** X8: when the configuration given to [initGrafix] has the four
    overlays that the compositor knows switched off (false or missing),
    the next [drawDiagonstics] draws nothing and changes nothing, whatever
    the toggles were before and whatever showTextBox says. *)
Theorem initGrafix_all_off_draws_nothing
    (bbt toggles : gmap string bool) (cv : canvas.t) (ctx : ctx2d.t) (timeStamp : Q)
    (mp : mouseProps.t) (frp : frameRateProps.t) :
  truthy (bbt !! "showGrid") = false ->
  truthy (bbt !! "showCenter") = false ->
  truthy (bbt !! "showMouseCoordinates") = false ->
  truthy (bbt !! "showFPS") = false ->
  drawDiagonstics cv ctx timeStamp (globals.mk (initGrafix bbt toggles) mp frp) =
  (ctx, globals.mk (initGrafix bbt toggles) mp frp).
Proof.
  intros Hg Hc Hm Hf. unfold drawDiagonstics. cbn [globals.buttonBarToggles].
  rewrite !initGrafix_lookup by (apply elem_of_dom; vm_compute; eauto).
  rewrite Hg, Hc, Hm, Hf. by destruct ctx.
Qed.

Lemma initGrafix_all_off_draws_nothing_witness :
  drawDiagonstics (canvas.mk 90 60) freshContext 0
    (globals.mk (initGrafix togglesAllOff buttonBarToggles) (mouseProps.mk 3 4)
       frameRateProps_init) =
  (freshContext,
   globals.mk (initGrafix togglesAllOff buttonBarToggles) (mouseProps.mk 3 4)
     frameRateProps_init).
Proof.
  apply (initGrafix_all_off_draws_nothing togglesAllOff buttonBarToggles
           (canvas.mk 90 60) freshContext 0 (mouseProps.mk 3 4) frameRateProps_init);
    reflexivity.
Defined.

(** ** The frame-rate estimator on any history *)

Lemma recordFrame_counter timeStamp frp :
  frameRateProps.counter (recordFrame timeStamp frp) =
  if 10 <? frameRateProps.counter frp + 1 then 0 else frameRateProps.counter frp + 1.
Proof. unfold recordFrame. cbn. by destruct (10 <? _). Qed.

Lemma recordFrame_fps timeStamp frp :
  frameRateProps.fps (recordFrame timeStamp frp) =
  if 10 <? frameRateProps.counter frp + 1
  then Z.of_nat (length (frameRateProps.times (recordFrame timeStamp frp)))
  else frameRateProps.fps frp.
Proof. rewrite recordFrame_times. unfold recordFrame. cbn. by destruct (10 <? _). Qed.

Lemma recordFrames_snoc timeStamps timeStamp frp :
  recordFrames (timeStamps ++ [timeStamp]) frp =
  recordFrame timeStamp (recordFrames timeStamps frp).
Proof. unfold recordFrames. by rewrite fold_left_app. Qed.

(** X9: the throttle counter counts the calls modulo 11: started anywhere
    from 0 to 10, after n calls of [drawFrameRate] it holds the starting
    value plus n, modulo 11, whatever the time stamps. *)
Theorem drawFrameRate_counter_mod_11
    (cv : canvas.t) (ctx : ctx2d.t) (frp : frameRateProps.t) (timeStamps : list Q) :
  0 <= frameRateProps.counter frp <= 10 ->
  frameRateProps.counter (snd (drawFrameRates cv timeStamps (ctx, frp))) =
  (frameRateProps.counter frp + Z.of_nat (length timeStamps)) mod 11.
Proof.
  intros Hc. rewrite drawFrameRates_snd.
  induction timeStamps as [|t ts IH] using rev_ind.
  - cbn. rewrite Z.add_0_r, Z.mod_small; lia.
  - rewrite recordFrames_snoc, recordFrame_counter, IH, length_app. cbn [length].
    replace (frameRateProps.counter frp + Z.of_nat (length ts + 1))
      with (frameRateProps.counter frp + Z.of_nat (length ts) + 1) by lia.
    generalize (frameRateProps.counter frp + Z.of_nat (length ts)). intros n.
    pose proof (Z.mod_pos_bound n 11 ltac:(lia)) as Hn.
    rewrite <- (Z.add_mod_idemp_l n 1 11) by lia.
    destruct (10 <? n mod 11 + 1) eqn:E.
    + apply Z.ltb_lt in E. assert (n mod 11 = 10) as -> by lia. done.
    + apply Z.ltb_ge in E. by rewrite (Z.mod_small (n mod 11 + 1)) by lia.
Qed.

Lemma drawFrameRate_counter_mod_11_witness :
  frameRateProps.counter
    (snd (drawFrameRates (canvas.mk 90 60) [5; 1; 7]%Q (freshContext, frameRateProps_init))) =
  (frameRateProps.counter frameRateProps_init + Z.of_nat (length [5; 1; 7]%Q)) mod 11.
Proof.
  apply (drawFrameRate_counter_mod_11 (canvas.mk 90 60) freshContext frameRateProps_init
           [5; 1; 7]%Q).
  cbn. lia.
Defined.

(** X10: fps keeps its value as long as the throttle counter has not passed
    10: calls that take the counter to at most 10 leave fps alone, whatever
    the time stamps; from the initial state the first ten calls leave fps
    at 0. *)
Theorem drawFrameRate_fps_held
    (cv : canvas.t) (ctx : ctx2d.t) (frp : frameRateProps.t) (timeStamps : list Q) :
  frameRateProps.counter frp + Z.of_nat (length timeStamps) <= 10 ->
  frameRateProps.fps (snd (drawFrameRates cv timeStamps (ctx, frp))) =
    frameRateProps.fps frp /\
  frameRateProps.counter (snd (drawFrameRates cv timeStamps (ctx, frp))) =
    frameRateProps.counter frp + Z.of_nat (length timeStamps).
Proof.
  rewrite drawFrameRates_snd.
  induction timeStamps as [|t ts IH] using rev_ind; intros Hlen.
  - cbn. split; [done|lia].
  - rewrite length_app in Hlen. cbn [length] in Hlen.
    destruct IH as [IHf IHc]; [lia|].
    rewrite recordFrames_snoc, recordFrame_fps, recordFrame_counter, IHf, IHc, length_app.
    cbn [length].
    destruct (10 <? _) eqn:E; [apply Z.ltb_lt in E|]; lia.
Qed.

Lemma drawFrameRate_fps_held_witness :
  frameRateProps.fps
    (snd (drawFrameRates (canvas.mk 90 60) [5; 1; 7]%Q (freshContext, frameRateProps_init))) =
    frameRateProps.fps frameRateProps_init /\
  frameRateProps.counter
    (snd (drawFrameRates (canvas.mk 90 60) [5; 1; 7]%Q (freshContext, frameRateProps_init))) =
    frameRateProps.counter frameRateProps_init + Z.of_nat (length [5; 1; 7]%Q).
Proof.
  apply (drawFrameRate_fps_held (canvas.mk 90 60) freshContext frameRateProps_init
           [5; 1; 7]%Q).
  cbn. lia.
Defined.

(** X11: a call that finds the throttle counter at 10 or above refreshes
    fps: it becomes the number of time stamps retained after the call,
    which is at least 1, and the counter restarts at 0. *)
Theorem drawFrameRate_refresh
    (cv : canvas.t) (ctx : ctx2d.t) (timeStamp : Q) (frp : frameRateProps.t) :
  10 <= frameRateProps.counter frp ->
  frameRateProps.fps (snd (drawFrameRate cv ctx timeStamp frp)) =
    Z.of_nat (length (frameRateProps.times (snd (drawFrameRate cv ctx timeStamp frp)))) /\
  1 <= frameRateProps.fps (snd (drawFrameRate cv ctx timeStamp frp)) /\
  frameRateProps.counter (snd (drawFrameRate cv ctx timeStamp frp)) = 0.
Proof.
  intros Hc. rewrite drawFrameRate_snd, recordFrame_fps, recordFrame_counter.
  assert ((10 <? frameRateProps.counter frp + 1) = true) as -> by (apply Z.ltb_lt; lia).
  rewrite recordFrame_times, length_app. cbn [length]. repeat split; lia.
Qed.

Lemma drawFrameRate_refresh_witness :
  frameRateProps.fps
    (snd (drawFrameRate (canvas.mk 90 60) freshContext 500 (frameRateProps.mk 0 [100]%Q 10))) =
    Z.of_nat (length (frameRateProps.times
      (snd (drawFrameRate (canvas.mk 90 60) freshContext 500
              (frameRateProps.mk 0 [100]%Q 10))))) /\
  1 <= frameRateProps.fps
    (snd (drawFrameRate (canvas.mk 90 60) freshContext 500 (frameRateProps.mk 0 [100]%Q 10))) /\
  frameRateProps.counter
    (snd (drawFrameRate (canvas.mk 90 60) freshContext 500 (frameRateProps.mk 0 [100]%Q 10))) = 0.
Proof.
  apply (drawFrameRate_refresh (canvas.mk 90 60) freshContext 500
           (frameRateProps.mk 0 [100]%Q 10)).
  cbn. lia.
Defined.

Lemma shiftOld_split timeStamp times :
  exists dropped,
    times = dropped ++ shiftOld timeStamp times /\
    Forall (fun t => t <= timeStamp - 1000)%Q dropped /\
    match shiftOld timeStamp times with
    | [] => True
    | t0 :: _ => (timeStamp - 1000 < t0)%Q
    end.
Proof.
  induction times as [|t0 rest IH]; cbn.
  - exists []. by repeat split.
  - destruct (Qle_bool t0 (timeStamp - 1000)) eqn:Hold.
    + destruct IH as (dropped & Heq & Hall & Hhead).
      exists (t0 :: dropped). repeat split; [cbn; by f_equal| |done].
      constructor; [by apply Qle_bool_iff|done].
    + exists []. repeat split; [constructor|].
      apply Qnot_le_lt. intros Hle. apply Qle_bool_iff in Hle. congruence.
Qed.

(** X12: whatever the history, a call of [drawFrameRate] drops time stamps
    only from the front, drops only time stamps that are at least 1000ms
    older than the new one, stops at the first one that is not, and appends
    the new one; so the list is never empty after a call and grows by at
    most one. *)
Theorem drawFrameRate_times
    (cv : canvas.t) (ctx : ctx2d.t) (timeStamp : Q) (frp : frameRateProps.t) :
  exists dropped kept,
    frameRateProps.times frp = dropped ++ kept /\
    frameRateProps.times (snd (drawFrameRate cv ctx timeStamp frp)) = kept ++ [timeStamp] /\
    Forall (fun t => t <= timeStamp - 1000)%Q dropped /\
    match kept with
    | [] => True
    | t0 :: _ => (timeStamp - 1000 < t0)%Q
    end.
Proof.
  destruct (shiftOld_split timeStamp (frameRateProps.times frp))
    as (dropped & Heq & Hall & Hhead).
  exists dropped, (shiftOld timeStamp (frameRateProps.times frp)).
  rewrite drawFrameRate_snd, recordFrame_times. done.
Qed.

Lemma shiftOld_filter timeStamp times :
  StronglySorted Qle times ->
  shiftOld timeStamp times = List.filter (recent timeStamp) times.
Proof.
  induction 1 as [|t0 rest Hsorted IH Hle]; cbn; [done|].
  unfold recent at 1. destruct (Qle_bool t0 (timeStamp - 1000)) eqn:Hold; cbn; [done|].
  f_equal. symmetry. apply forallb_filter_id. apply forallb_forall.
  intros r Hr. rewrite Forall_forall in Hle. apply list_elem_of_In in Hr.
  specialize (Hle r Hr). unfold recent.
  destruct (Qle_bool r (timeStamp - 1000)) eqn:Hr'; [|done].
  apply Qle_bool_iff in Hr'.
  assert (t0 <= timeStamp - 1000)%Q as Ht0 by lra.
  apply Qle_bool_iff in Ht0. congruence.
Qed.

(** X13: on a history in non-decreasing order the window is exact: after
    the call the list holds precisely the earlier time stamps that are less
    than 1000ms older than the new one, in their order, followed by the new
    one. *)
Theorem drawFrameRate_window_exact
    (cv : canvas.t) (ctx : ctx2d.t) (timeStamp : Q) (frp : frameRateProps.t) :
  StronglySorted Qle (frameRateProps.times frp) ->
  frameRateProps.times (snd (drawFrameRate cv ctx timeStamp frp)) =
  List.filter (fun t => negb (Qle_bool t (timeStamp - 1000))) (frameRateProps.times frp)
    ++ [timeStamp].
Proof.
  intros Hsorted. rewrite drawFrameRate_snd, recordFrame_times.
  by rewrite (shiftOld_filter _ _ Hsorted).
Qed.

Lemma drawFrameRate_window_exact_witness :
  frameRateProps.times
    (snd (drawFrameRate (canvas.mk 90 60) freshContext 1500
            (frameRateProps.mk 0 [100; 500; 500; 900]%Q 3))) =
  List.filter (fun t => negb (Qle_bool t (1500 - 1000)))
    (frameRateProps.times (frameRateProps.mk 0 [100; 500; 500; 900]%Q 3)) ++ [1500%Q].
Proof.
  apply (drawFrameRate_window_exact (canvas.mk 90 60) freshContext 1500
           (frameRateProps.mk 0 [100; 500; 500; 900]%Q 3)).
  cbn. repeat constructor; by vm_compute.
Defined.

Lemma recordFrame_nondecreasing latest timeStamp frp :
  StronglySorted Qle (frameRateProps.times frp) ->
  Forall (fun r => r <= latest)%Q (frameRateProps.times frp) ->
  (latest <= timeStamp)%Q ->
  StronglySorted Qle (frameRateProps.times (recordFrame timeStamp frp)) /\
  Forall (fun r => r <= timeStamp /\ timeStamp - r < 1000)%Q
    (frameRateProps.times (recordFrame timeStamp frp)).
Proof.
  intros Hsorted Hbound Hle. rewrite recordFrame_times, (shiftOld_filter _ _ Hsorted).
  split.
  - apply StronglySorted_app_2.
    + intros r t Hr ->%list_elem_of_singleton.
      apply list_elem_of_In, filter_In in Hr as [Hr _]. apply list_elem_of_In in Hr.
      rewrite Forall_forall in Hbound. specialize (Hbound r Hr). cbn in Hbound. lra.
    + clear Hbound. induction Hsorted as [|t0 rest Hs IH Hall]; cbn; [constructor|].
      destruct (recent timeStamp t0); [|done].
      constructor; [done|]. apply Forall_forall. intros r Hr.
      apply list_elem_of_In, filter_In in Hr as [Hr _]. apply list_elem_of_In in Hr.
      rewrite Forall_forall in Hall. by apply Hall.
    + repeat constructor.
  - apply Forall_app. split; [|repeat constructor; lra].
    apply Forall_forall. intros r Hr.
    apply list_elem_of_In, filter_In in Hr as [Hr Hrecent]. apply list_elem_of_In in Hr.
    rewrite Forall_forall in Hbound. specialize (Hbound r Hr). cbn in Hbound.
    unfold recent in Hrecent. apply negb_true_iff in Hrecent.
    assert (timeStamp - 1000 < r)%Q.
    { apply Qnot_le_lt. intros H. apply Qle_bool_iff in H. congruence. }
    split; lra.
Qed.

(** X14: the window also holds when time stamps repeat, and it is strict:
    when [drawFrameRate] is called with time stamps in non-decreasing order
    on a state whose [times] is empty, then after the calls the retained
    time stamps are in non-decreasing order and each of them is less than
    1000ms older than the latest. *)
Theorem drawFrameRate_window_nondecreasing
    (cv : canvas.t) (ctx : ctx2d.t) (frp : frameRateProps.t)
    (timeStamps : list Q) (latest : Q) :
  frameRateProps.times frp = [] ->
  StronglySorted Qle (timeStamps ++ [latest]) ->
  StronglySorted Qle
    (frameRateProps.times (snd (drawFrameRates cv (timeStamps ++ [latest]) (ctx, frp)))) /\
  Forall (fun retained => retained <= latest /\ latest - retained < 1000)%Q
    (frameRateProps.times (snd (drawFrameRates cv (timeStamps ++ [latest]) (ctx, frp)))).
Proof.
  intros Hempty. rewrite drawFrameRates_snd. revert latest.
  induction timeStamps as [|t ts IH] using rev_ind; intros latest Hsorted.
  - apply (recordFrame_nondecreasing latest); rewrite ?Hempty; [constructor|constructor|lra].
  - rewrite recordFrames_snoc.
    pose proof (StronglySorted_app_1_l _ _ _ Hsorted) as Hpre.
    destruct (IH t Hpre) as [Hs Hw].
    apply (recordFrame_nondecreasing t); [done| |].
    + eapply Forall_impl; [exact Hw|]. by intros r [Hr _].
    + apply (StronglySorted_app_1_elem_of _ _ _ _ _ Hsorted).
      * apply elem_of_app. right. by apply list_elem_of_singleton.
      * by apply list_elem_of_singleton.
Qed.

Lemma drawFrameRate_window_nondecreasing_witness :
  StronglySorted Qle
    (frameRateProps.times
       (snd (drawFrameRates (canvas.mk 90 60) ([0; 600; 600] ++ [1600])%Q
               (freshContext, frameRateProps_init)))) /\
  Forall (fun retained => retained <= 1600 /\ 1600 - retained < 1000)%Q
    (frameRateProps.times
       (snd (drawFrameRates (canvas.mk 90 60) ([0; 600; 600] ++ [1600])%Q
               (freshContext, frameRateProps_init)))).
Proof.
  apply (drawFrameRate_window_nondecreasing (canvas.mk 90 60) freshContext
           frameRateProps_init [0; 600; 600]%Q 1600%Q).
  - reflexivity.
  - cbn. repeat constructor; by vm_compute.
Defined.

(** ** The time keeper over many advances *)

(** X15: the two counters are independent: [countFrames] leaves the
    generation and cycle counts alone, [countGenerations] leaves the frame
    count alone, and the two advances commute. *)
Theorem counters_independent (tk : TimeKeeper) :
  generationCount (countFrames tk) = generationCount tk /\
  cycleCount (countFrames tk) = cycleCount tk /\
  frameCount (countGenerations tk) = frameCount tk /\
  countFrames (countGenerations tk) = countGenerations (countFrames tk).
Proof.
  destruct tk as [f g c]. unfold countFrames, countGenerations. cbn.
  destruct (f + 1 =? MAX_SAFE_INTEGER) eqn:Ef;
    destruct (g + 1 =? MAX_SAFE_INTEGER) eqn:Eg; cbn; rewrite ?Ef, ?Eg; done.
Qed.

Lemma MAX_SAFE_INTEGER_pos : 0 < MAX_SAFE_INTEGER.
Proof. reflexivity. Qed.

Lemma wrap_step (v : Z) :
  0 <= v < MAX_SAFE_INTEGER ->
  (if v + 1 =? MAX_SAFE_INTEGER then 0 else v + 1) = (v + 1) mod MAX_SAFE_INTEGER.
Proof.
  intros Hv. destruct (v + 1 =? MAX_SAFE_INTEGER) eqn:E.
  - apply Z.eqb_eq in E. rewrite E. symmetry. apply Z_mod_same_full.
  - apply Z.eqb_neq in E. symmetry. apply Z.mod_small. lia.
Qed.

Lemma countGenerations_iter_mod (n : nat) (tk : TimeKeeper) :
  0 <= generationCount tk < MAX_SAFE_INTEGER ->
  generationCount (Nat.iter n countGenerations tk) =
  (generationCount tk + Z.of_nat n) mod MAX_SAFE_INTEGER.
Proof.
  intros Hg. pose proof MAX_SAFE_INTEGER_pos as Hmax.
  induction n as [|n IH].
  - cbn. rewrite Z.add_0_r, Z.mod_small; lia.
  - rewrite Nat.iter_succ, countGenerations_generationCount, IH.
    rewrite wrap_step by (apply Z.mod_pos_bound; lia).
    rewrite Z.add_mod_idemp_l by lia. f_equal. lia.
Qed.

Lemma countFrames_iter_mod (n : nat) (tk : TimeKeeper) :
  0 <= frameCount tk < MAX_SAFE_INTEGER ->
  frameCount (Nat.iter n countFrames tk) =
  (frameCount tk + Z.of_nat n) mod MAX_SAFE_INTEGER.
Proof.
  intros Hg. pose proof MAX_SAFE_INTEGER_pos as Hmax.
  induction n as [|n IH].
  - cbn. rewrite Z.add_0_r, Z.mod_small; lia.
  - rewrite Nat.iter_succ, countFrames_frameCount, IH.
    rewrite wrap_step by (apply Z.mod_pos_bound; lia).
    rewrite Z.add_mod_idemp_l by lia. f_equal. lia.
Qed.

(** X16: the generation counter counts modulo the maximum safe integer:
    from a value g with 0 <= g < 2^53 - 1, after n calls of
    [countGenerations] it holds (g + n) mod (2^53 - 1), and, once at least
    one call has been made, cycleCount is a quarter of that, rounded
    down. *)
Theorem countGenerations_modular (n : nat) (tk : TimeKeeper) :
  0 <= generationCount tk < MAX_SAFE_INTEGER ->
  generationCount (Nat.iter n countGenerations tk) =
    (generationCount tk + Z.of_nat n) mod MAX_SAFE_INTEGER /\
  cycleCount (Nat.iter (S n) countGenerations tk) =
    ((generationCount tk + Z.of_nat (S n)) mod MAX_SAFE_INTEGER) / 4.
Proof.
  intros Hg. split; [by apply countGenerations_iter_mod|].
  rewrite <- countGenerations_iter_mod by done. by rewrite Nat.iter_succ.
Qed.

Lemma countGenerations_modular_witness :
  generationCount (Nat.iter 3 countGenerations timeKeeperNearMax) =
    (generationCount timeKeeperNearMax + Z.of_nat 3) mod MAX_SAFE_INTEGER /\
  cycleCount (Nat.iter 4 countGenerations timeKeeperNearMax) =
    ((generationCount timeKeeperNearMax + Z.of_nat 4) mod MAX_SAFE_INTEGER) / 4.
Proof.
  apply (countGenerations_modular 3 timeKeeperNearMax). by vm_compute.
Defined.

(** X17: the frame counter counts modulo the maximum safe integer in the
    same way, and the calls of [countFrames] never move the generation and
    cycle counts. *)
Theorem countFrames_modular (n : nat) (tk : TimeKeeper) :
  0 <= frameCount tk < MAX_SAFE_INTEGER ->
  frameCount (Nat.iter n countFrames tk) =
    (frameCount tk + Z.of_nat n) mod MAX_SAFE_INTEGER /\
  generationCount (Nat.iter n countFrames tk) = generationCount tk /\
  cycleCount (Nat.iter n countFrames tk) = cycleCount tk.
Proof.
  intros Hf. split; [by apply countFrames_iter_mod|].
  clear Hf. induction n as [|n [IHg IHc]]; [done|].
  rewrite Nat.iter_succ. unfold countFrames at 1 3. cbn.
  by destruct (_ =? _).
Qed.

Lemma countFrames_modular_witness :
  frameCount (Nat.iter 3 countFrames timeKeeperNearMax) =
    (frameCount timeKeeperNearMax + Z.of_nat 3) mod MAX_SAFE_INTEGER /\
  generationCount (Nat.iter 3 countFrames timeKeeperNearMax) =
    generationCount timeKeeperNearMax /\
  cycleCount (Nat.iter 3 countFrames timeKeeperNearMax) = cycleCount timeKeeperNearMax.
Proof.
  apply (countFrames_modular 3 timeKeeperNearMax). by vm_compute.
Defined.

(** ** Toggles that are missing *)



(** X19: two clicks give back what the code reads from the toggles, with
    no condition on them: every toggle, present or missing, is as truthy
    after two clicks on any name as it was before. *)
Theorem toggleListener_twice_truthy (toggle k : string) (bbt : gmap string bool) :
  truthy (toggleListener toggle (toggleListener toggle bbt) !! k) = truthy (bbt !! k).
Proof.
  destruct (decide (k = toggle)) as [->|Hne].
  - rewrite !toggleListener_lookup. cbn. apply negb_involutive.
  - by rewrite !toggleListener_other.
Qed.

(** X20: clicks on different buttons commute: the toggles after clicking
    two different names do not depend on the order of the clicks. *)
Theorem toggleListener_commute (toggle1 toggle2 : string) (bbt : gmap string bool) :
  toggle1 ≠ toggle2 ->
  toggleListener toggle1 (toggleListener toggle2 bbt) =
  toggleListener toggle2 (toggleListener toggle1 bbt).
Proof.
  intros Hne. unfold toggleListener.
  rewrite !lookup_insert_ne by done. by apply insert_insert_ne.
Qed.

Lemma toggleListener_commute_witness :
  toggleListener "showGrid" (toggleListener "showFPS" buttonBarToggles) =
  toggleListener "showFPS" (toggleListener "showGrid" buttonBarToggles).
Proof.
  apply (toggleListener_commute "showGrid" "showFPS" buttonBarToggles). done.
Defined.

(** ** The text box in terms of the anchor and the metrics *)







(** ** Code point display *)

Lemma toString16_inj (a b : Z) : toString16 a = toString16 b -> a = b.
Proof.
  unfold toString16. intros Heq.
  apply (f_equal HexadecimalString.NilEmpty.int_of_string) in Heq.
  rewrite !HexadecimalString.NilEmpty.isi in Heq.
  injection Heq as Heq. by apply HexadecimalZ.to_int_inj.
Qed.

(** X24: [displayCodepoint] renders one text, the code point in
    hexadecimal, in white 12px monospace whatever style the context comes
    with, and hands the context back with the style, the stack and the path
    it had; different code points are shown as different texts. *)
Theorem displayCodepoint_rendering (ctx : ctx2d.t) (codePoint : Z) (x y : Q) :
  displayCodepoint ctx codePoint x y =
    ctx2d.mk (ctx2d.current ctx) (ctx2d.saved ctx) (ctx2d.path ctx)
      (ctx2d.output ctx ++
         [ctx2d.FilledText (toString16 codePoint) x y "white" "12px monospace"]) /\
  (forall other, toString16 other = toString16 codePoint -> other = codePoint).
Proof. split; [reflexivity|]. intros other. apply toString16_inj. Qed.
